(** * SlideSage-AI: slide extraction, prompt building and summarization

    A shallow embedding of the three Python modules

      - [ppt_data_preprocessing.py]   (class [PPTDataPreprocessing]),
      - [ppt_summarization_bedrock.py] (Variant A, Amazon Titan),
      - [ppt_summarization_openai.py]  (Variant B, Azure OpenAI),

    followed by the properties of the specification that concern them.

    Conventions.  A Python [str] is a [string] whose characters are code
    points below 256; [len] is [String.length].  A Python exception is a value
    of [exn] and a fallible computation returns a [result].  The entry points
    talk to the file system, the presentation parser, the loggers and the
    model providers: they run in the monad [M], which threads the trace of
    the events performed so far and consults a [World] for the answers of the
    outside. *)

From Stdlib Require Import String Ascii List ZArith Lia Bool Arith.
From Stdlib Require Import DecimalString QArith Sorted.
Import ListNotations.

Open Scope string_scope.
Open Scope list_scope.
Open Scope nat_scope.

Infix "+++" := String.append (right associativity, at level 60).

(** ** Python values and exceptions *)

Module Py.

Inductive exn : Type :=
| KeyError (key : string)
| IndexError
| TypeError
| ValueError
| RuntimeError (msg : string) (cause : exn)
| External (what : string).

Inductive result (A : Type) : Type :=
| Ok (a : A)
| Raise (e : exn).
Arguments Ok {A} a.
Arguments Raise {A} e.

Definition bind {A B} (m : result A) (k : A -> result B) : result B :=
  match m with
  | Ok a => k a
  | Raise e => Raise e
  end.

(** The line feed of the Python literals ["\n"]. *)
Definition nl : string := String (ascii_of_nat 10) "".

(** [str.isspace] on one code point below 256: the characters removed by
    [str.strip()]. *)
Definition isspace (c : ascii) : bool :=
  let n := nat_of_ascii c in
  ((9 <=? n) && (n <=? 13)) || ((28 <=? n) && (n <=? 32))
  || (n =? 133) || (n =? 160).

Fixpoint lstrip (s : string) : string :=
  match s with
  | EmptyString => EmptyString
  | String c r => if isspace c then lstrip r else s
  end.

Fixpoint rstrip (s : string) : string :=
  match s with
  | EmptyString => EmptyString
  | String c r =>
      match rstrip r with
      | EmptyString => if isspace c then EmptyString else String c EmptyString
      | r' => String c r'
      end
  end.

Definition strip (s : string) : string := lstrip (rstrip s).

(** [sep.join(items)]. *)
Definition join (sep : string) (items : list string) : string :=
  String.concat sep items.

(** [len(s)] as a Python integer. *)
Definition len (s : string) : Z := Z.of_nat (String.length s).

(** [s.endswith(suffix)]. *)
Definition endswith (s suffix : string) : bool :=
  let n := String.length s in
  let m := String.length suffix in
  (m <=? n) && String.eqb (substring (n - m) m s) suffix.

(** [s.startswith(prefix)]. *)
Definition startswith (s pre : string) : bool := String.prefix pre s.

(** [str(n)] for a non-negative integer. *)
Definition str_of_nat (n : nat) : string :=
  NilEmpty.string_of_uint (Nat.to_uint n).

(** Truth value of a string and of a list. *)
Definition truthy_str (s : string) : bool :=
  match s with EmptyString => false | _ => true end.

Definition truthy_list {A} (l : list A) : bool :=
  match l with [] => false | _ => true end.

(** [posixpath.join(a, b)] for one more component. *)
Definition path_join2 (path b : string) : string :=
  if startswith b "/" then b
  else if negb (truthy_str path) || endswith path "/" then path +++ b
  else path +++ "/" +++ b.

(** [os.path.join(a, *p)]. *)
Definition path_join (a : string) (p : list string) : string :=
  fold_left path_join2 p a.

End Py.

Import Py.

Notation "x <- m ;; k" := (Py.bind m (fun x => k))
  (at level 61, m at next level, right associativity).

(** ** The presentation, as python-pptx exposes it *)

Module pptx.

Record Cell := mkCell { cell_text : string }.
Record Row := mkRow { cells : list Cell }.
Record Table := mkTable { rows : list Row }.

(** A shape with its two capability flags; [shape_text] is read only when
    [has_text_frame] holds and [table] only when [has_table] holds. *)
Record Shape := mkShape {
  has_text_frame : bool;
  shape_text : string;
  has_table : bool;
  table : Table
}.

Record Slide := mkSlide { shapes : list Shape }.
Record Presentation := mkPresentation { slides : list Slide }.

End pptx.

Import pptx.

(** ** pandas: the part of [DataFrame] the extractor relies on *)

Module pd.

(** A frame of text cells: column labels and body rows.  A cell that the
    constructor had to fill in is [None]. *)
Record DataFrame := mkDataFrame {
  columns : list string;
  body : list (list (option string))
}.

Definition pad (width : nat) (row : list string) : list (option string) :=
  map Some row ++ repeat None (width - length row).

(** [pd.DataFrame(data, columns=columns)] on a list of rows.  No row gives
    the empty frame with these columns.  Otherwise rows shorter than the
    widest one are filled with missing values, and the constructor raises
    [ValueError] unless the widest row has one cell per column label. *)
Definition new_DataFrame (data : list (list string)) (cols : list string)
  : result DataFrame :=
  match data with
  | [] => Ok (mkDataFrame cols [])
  | _ =>
      let width := list_max (map (@length string) data) in
      if width =? length cols
      then Ok (mkDataFrame cols (map (pad width) data))
      else Raise ValueError
  end.

End pd.

(** ** ppt_data_preprocessing.py *)

(** A Python dictionary over the keys this program reads.  A field is [None]
    when the key is absent; a table is its list of rows of cell texts. *)
Record entry := mkEntry {
  title : option string;
  content : option string;
  text : option string;
  tables : option (list (list (list string)))
}.

Module PPTDataPreprocessing.

Section Extractor.

(** [DataFrame.to_string(index=False)], the tabular rendering of pandas. *)
Variable to_string : pd.DataFrame -> string.

(** Lines 25-26: [data.append([cell.text for cell in row.cells])]. *)
Definition table_rows (t : Table) : list (list string) :=
  map (fun row => map cell_text (cells row)) (rows t).

(** Lines 20-30, the loop over [slide.shapes] with its accumulator. *)
Fixpoint extract_tables_loop (shs : list Shape) (tables : list pd.DataFrame)
  : result (list pd.DataFrame) :=
  match shs with
  | [] => Ok tables
  | shape :: rest =>
      if has_table shape then
        match table_rows (table shape) with
        | [] => extract_tables_loop rest tables
        | header :: data_rows =>
            df <- pd.new_DataFrame data_rows header ;;
            extract_tables_loop rest (tables ++ [df])
        end
      else extract_tables_loop rest tables
  end.

Definition extract_tables_from_slide (slide : Slide)
  : result (list pd.DataFrame) :=
  extract_tables_loop (shapes slide) [].

(** Lines 42-44. *)
Fixpoint text_loop (shs : list Shape) (slide_content : list string)
  : list string :=
  match shs with
  | [] => slide_content
  | shape :: rest =>
      if has_text_frame shape
      then text_loop rest (slide_content ++ [strip (shape_text shape)])
      else text_loop rest slide_content
  end.

(** Lines 41-47: the lines one slide contributes. *)
Definition slide_lines (slide : Slide) : result (list string) :=
  let slide_content := text_loop (shapes slide) [] in
  slide_tables <- extract_tables_from_slide slide ;;
  Ok (slide_content ++ map to_string slide_tables).

(** Line 49. *)
Definition slide_block (idx : nat) (slide_content : list string) : string :=
  "Slide " +++ str_of_nat (idx + 1) +++ ":" +++ nl
    +++ join nl slide_content.

(** Lines 40-49, [enumerate(self.presentation.slides)] from [idx]. *)
Fixpoint content_loop (idx : nat) (sls : list Slide)
    (overall_content : list string) : result (list string) :=
  match sls with
  | [] => Ok overall_content
  | slide :: rest =>
      slide_content <- slide_lines slide ;;
      if truthy_list slide_content
      then content_loop (S idx) rest
             (overall_content ++ [slide_block idx slide_content])
      else content_loop (S idx) rest overall_content
  end.

Definition extract_content_from_ppt (p : Presentation) : result string :=
  overall_content <- content_loop 0 (slides p) [] ;;
  Ok (join (nl +++ nl) overall_content).

End Extractor.

(** Lines 64-73: the two accumulators of one slide. *)
Fixpoint shape_loop (shs : list Shape) (slide_text : list string)
    (slide_tables : list (list (list string)))
  : list string * list (list (list string)) :=
  match shs with
  | [] => (slide_text, slide_tables)
  | shape :: rest =>
      if has_text_frame shape then
        shape_loop rest (slide_text ++ [strip (shape_text shape)]) slide_tables
      else if has_table shape then
        let table_data :=
          map (fun row => map (fun cell => strip (cell_text cell)) (cells row))
              (rows (table shape)) in
        shape_loop rest slide_text (slide_tables ++ [table_data])
      else shape_loop rest slide_text slide_tables
  end.

(** Lines 75-79. *)
Definition slide_record (slide_text : list string)
    (slide_tables : list (list (list string))) : entry :=
  {| title := Some (match slide_text with
                    | t :: _ => t
                    | [] => "Untitled Slide"
                    end);
     content := Some (if (1 <? length slide_text)%nat
                      then join " " (tl slide_text) else "");
     text := None;
     tables := Some slide_tables |}.

(** Lines 61-79. *)
Fixpoint slides_loop (sls : list Slide) (data : list entry) : list entry :=
  match sls with
  | [] => data
  | slide :: rest =>
      let '(slide_text, slide_tables) := shape_loop (shapes slide) [] [] in
      if truthy_list slide_text || truthy_list slide_tables
      then slides_loop rest (data ++ [slide_record slide_text slide_tables])
      else slides_loop rest data
  end.

(** Lines 59-83.  Every accessor used by the walk is total on a loaded
    presentation, so the handler of lines 81-83 has nothing to catch. *)
Definition preprocess_ppt (p : Presentation) : list entry :=
  slides_loop (slides p) [].

End PPTDataPreprocessing.

(** ** The outside world of the two summarization clients *)

Module Eff.

(** Body of an [invoke_model] request (lines 48-56), before [json.dumps]. *)
Record titan_request := mkTitanRequest {
  inputText : string;
  maxTokenCount : Z;
  stopSequences : list string;
  temperature : Q;
  topP : Z
}.

(** One element of the ["results"] array of a Titan response; a field is
    [None] when the key is absent. *)
Record titan_result := mkTitanResult {
  tokenCount : option Z;
  outputText : option string;
  completionReason : option string
}.

(** The decoded response body; [results] is [None] without that key. *)
Record titan_body := mkTitanBody { results : option (list titan_result) }.

(** A chat completion: the choices and, for each, its message content. *)
Record chat_choice := mkChoice { message_content : option string }.
Record chat_response := mkChatResponse { choices : list chat_choice }.

(** What a logger call or a [print] is given. *)
Inductive payload : Type :=
| Text (s : string)
| TextExn (s : string) (e : exn)
| SlideData (d : list entry)
| Insights (s : string) (r : list (option string)).

Inductive event : Type :=
| ListDir (path : string)
| OpenPresentation (path : string)
| LogError (p : payload)
| LogInfo (p : payload)
| Print (s : string)
| CreateClient (service region : string)
| InvokeModel (model_id content_type accept : string) (request : titan_request)
| ChatCompletionCreate (engine : string) (messages : list (string * string))
                       (temperature : Q).

Definition trace := list event.

(** The collaborators the code imports and calls. *)
Record World := mkWorld {
  pandas_presentation_directory : string;
  AZURE_OPENAI_DEPLOYMENT : string;
  listdir : string -> result (list string);
  pptx_Presentation : string -> result pptx.Presentation;
  session_client : string -> string -> result unit;
  invoke_model : string -> string -> string -> titan_request -> result titan_body;
  ChatCompletion_create :
    string -> list (string * string) -> Q -> result chat_response
}.

(** Computations that may raise and that extend the trace. *)
Definition M (A : Type) : Type := trace -> result A * trace.

Definition ret {A} (a : A) : M A := fun t => (Ok a, t).

Definition raise {A} (e : exn) : M A := fun t => (Raise e, t).

Definition bindM {A B} (m : M A) (k : A -> M B) : M B :=
  fun t =>
    match m t with
    | (Ok a, t') => k a t'
    | (Raise e, t') => (Raise e, t')
    end.

(** Perform [ev], then continue with the answer [r] of the world. *)
Definition call {A} (ev : event) (r : result A) : M A :=
  fun t => (r, t ++ [ev]).

Definition emit (ev : event) : M unit := call ev (Ok tt).

Definition lift {A} (r : result A) : M A := fun t => (r, t).

(** [try: m except Exception as e: h e]. *)
Definition try_except {A} (m : M A) (h : exn -> M A) : M A :=
  fun t =>
    match m t with
    | (Ok a, t') => (Ok a, t')
    | (Raise e, t') => h e t'
    end.

(** The result and the events of a run from the empty trace. *)
Definition run {A} (m : M A) : result A * trace := m [].

(** A network request to a text-generation endpoint. *)
Definition is_generation_call (ev : event) : bool :=
  match ev with
  | InvokeModel _ _ _ _ | ChatCompletionCreate _ _ _ => true
  | _ => false
  end.

(** Any contact with a provider, the creation of its client included. *)
Definition is_provider_event (ev : event) : bool :=
  match ev with
  | CreateClient _ _ | InvokeModel _ _ _ _ | ChatCompletionCreate _ _ _ => true
  | _ => false
  end.

End Eff.

Import Eff.

Notation "x <~ m ;; k" := (Eff.bindM m (fun x => k))
  (at level 61, m at next level, right associativity).
Notation "m ;;; k" := (Eff.bindM m (fun _ => k))
  (at level 61, right associativity).

(** [str(x)] inside an f-string, for optional values. *)
Definition str_of_Z (z : Z) : string := NilEmpty.string_of_int (Z.to_int z).

Definition fmt_opt_Z (o : option Z) : string :=
  match o with Some z => str_of_Z z | None => "None" end.

Definition fmt_opt_str (o : option string) : string :=
  match o with Some s => s | None => "None" end.

(** [next((os.path.join(directory, report_id, file) for file in files
          if file.endswith(".pptx")), None)]. *)
Fixpoint first_pptx (directory report_id : string) (files : list string)
  : option string :=
  match files with
  | [] => None
  | file :: rest =>
      if endswith file ".pptx"
      then Some (path_join directory [report_id; file])
      else first_pptx directory report_id rest
  end.

(** The table block shared by the two prompt generators:
    [headers = ", ".join(table[0])],
    [rows = "\n".join([", ".join(row) for row in table[1:]])] and
    [prompt += f"Headers: {headers}\nRows:\n{rows}\n"], for each table. *)
Fixpoint tables_block (tbls : list (list (list string))) (prompt : string)
  : result string :=
  match tbls with
  | [] => Ok prompt
  | table :: rest =>
      match table with
      | [] => Raise IndexError
      | header :: data_rows =>
          let headers := join ", " header in
          let rows := join nl (map (join ", ") data_rows) in
          tables_block rest
            (prompt +++ "Headers: " +++ headers +++ nl +++ "Rows:" +++ nl
                    +++ rows +++ nl)
      end
  end.

(** [d[key]]. *)
Definition getitem {A} (key : string) (field : option A) : result A :=
  match field with
  | Some v => Ok v
  | None => Raise (KeyError key)
  end.

(** ** ppt_summarization_bedrock.py (Variant A) *)

Module Bedrock.

(** Lines 77-81: the text one entry serializes to. *)
Fixpoint rows_text (table : list (list string)) (entry_text : string) : string :=
  match table with
  | [] => entry_text
  | row :: rest => rows_text rest (entry_text +++ join ", " row +++ nl)
  end.

Fixpoint tables_text (tbls : list (list (list string))) (entry_text : string)
  : string :=
  match tbls with
  | [] => entry_text
  | table :: rest => tables_text rest (rows_text table entry_text)
  end.

Definition entry_text_of (e : entry) : result string :=
  t <- getitem "text" (text e) ;;
  let entry_text := "Slide Title: " +++ t +++ nl in
  let entry_text :=
    tables_text (match tables e with Some tbls => tbls | None => [] end)
                entry_text in
  Ok (entry_text +++ nl).

(** Lines 76-88: the loop, from the state [(chunks, current_chunk)]. *)
Fixpoint split_loop (data : list entry) (max_chars : Z)
    (chunks : list string) (current_chunk : string)
  : result (list string * string) :=
  match data with
  | [] => Ok (chunks, current_chunk)
  | e :: rest =>
      entry_text <- entry_text_of e ;;
      if (len current_chunk + len entry_text >? max_chars)%Z
      then split_loop rest max_chars (chunks ++ [current_chunk]) entry_text
      else split_loop rest max_chars chunks (current_chunk +++ entry_text)
  end.

(** Lines 69-94. *)
Definition split_prompt (data : list entry) (max_chars : Z)
  : result (list string) :=
  st <- split_loop data max_chars [] "" ;;
  let '(chunks, current_chunk) := st in
  if truthy_str current_chunk
  then Ok (chunks ++ [current_chunk])
  else Ok chunks.

Definition preamble : string :=
  "Analyze the following email deliverability data and provide a detailed, natural-language summary:"
    +++ nl +++ nl.

Definition closing : string :=
  "Based on the data provided, generate a detailed and easy-to-read summary. "
  +++ "Explain deliverability performance, engagement metrics, and patterns in natural "
  +++ "language without repeating the tabular data verbatim.".

(** Lines 110-118. *)
Fixpoint prompt_loop (data : list entry) (prompt : string) : result string :=
  match data with
  | [] => Ok prompt
  | e :: rest =>
      t <- getitem "text" (text e) ;;
      let prompt := prompt +++ "Slide Title: " +++ t +++ nl in
      prompt <-
        match tables e with
        | Some ((_ :: _) as tbls) =>
            tables_block tbls (prompt +++ "Here is the tabular data:" +++ nl)
        | _ => Ok prompt
        end ;;
      prompt_loop rest (prompt +++ nl)
  end.

(** Lines 98-126. *)
Definition generate_prompt (data : list entry) : result string :=
  match prompt_loop data preamble with
  | Ok prompt => Ok (prompt +++ closing)
  | Raise e => Raise (RuntimeError "Error generating prompt: " e)
  end.

Section Client.

Variable W : World.

(** Lines 11-26. *)
Definition initialize_bedrock_client (region_name : string) : M unit :=
  try_except
    (call (CreateClient "bedrock-runtime" region_name)
          (session_client W "bedrock-runtime" region_name))
    (fun e => raise (RuntimeError "Error initializing Bedrock client: " e)).

(** Lines 59-63. *)
Fixpoint results_loop (rs : list titan_result) (results : list (option string))
  : M (list (option string)) :=
  match rs with
  | [] => ret results
  | r :: rest =>
      emit (Print ("Token count: " +++ fmt_opt_Z (tokenCount r))) ;;;
      emit (Print ("Output text: " +++ fmt_opt_str (outputText r))) ;;;
      emit (Print ("Completion reason: " +++ fmt_opt_str (completionReason r))) ;;;
      results_loop rest (results ++ [outputText r])
  end.

(** Lines 29-66. *)
Definition query_bedrock_model (bedrock_client : unit) (model_id prompt : string)
    (max_token_count : Z) : M (list (option string)) :=
  try_except
    (let request :=
       {| inputText := prompt;
          maxTokenCount := max_token_count;
          stopSequences := [];
          temperature := (7 # 10)%Q;
          topP := 1%Z |} in
     response_body <~
       call (InvokeModel model_id "application/json" "application/json" request)
            (invoke_model W model_id "application/json" "application/json"
                          request) ;;
     results_loop
       (match results response_body with Some rs => rs | None => [] end) [])
    (fun e => raise (RuntimeError "Error querying Bedrock model: " e)).

(** Lines 130-163.  The body ends after the last logging call: Python then
    returns [None]. *)
Definition summarize_with_bedrock_titan (report_id : string)
  : M (option (list (option string))) :=
  try_except
    (let directory :=
       path_join (pandas_presentation_directory W) [report_id] in
     files <~ call (ListDir directory) (listdir W directory) ;;
     let file_to_get_summarization :=
       first_pptx (pandas_presentation_directory W) report_id files in
     match file_to_get_summarization with
     | None =>
         emit (LogError (Text ("No PowerPoint file found for report ID: "
                                 +++ report_id))) ;;;
         ret None
     | Some path =>
         if negb (truthy_str path) then
           emit (LogError (Text ("No PowerPoint file found for report ID: "
                                   +++ report_id))) ;;;
           ret None
         else
           presentation <~ call (OpenPresentation path) (pptx_Presentation W path) ;;
           let slide_data := PPTDataPreprocessing.preprocess_ppt presentation in
           if negb (truthy_list slide_data) then
             emit (LogError
                     (Text "Failed to preprocess content from the presentation.")) ;;;
             ret None
           else
             emit (LogInfo (Text (nl +++ "--- Extracted Content ---" +++ nl))) ;;;
             emit (LogInfo (SlideData slide_data)) ;;;
             bedrock_client <~ initialize_bedrock_client "us-west-2" ;;
             prompt <~ lift (generate_prompt slide_data) ;;
             let model_id := "amazon.titan-text-express-v1" in
             response <~ query_bedrock_model bedrock_client model_id prompt 4096 ;;
             emit (LogInfo (Insights "Generated Insights: " response)) ;;;
             ret None
     end)
    (fun e =>
       emit (LogError (TextExn "Error querying Bedrock model: " e)) ;;;
       ret None).

End Client.

End Bedrock.

(** ** ppt_summarization_openai.py (Variant B) *)

Module OpenAI.

Definition preamble : string :=
  "You are a report summarizer. Please provide a detailed and easy-to-read summary of the following presentation:"
    +++ nl +++ nl.

Definition closing : string :=
  "Summarize the key points from all slides in a coherent and natural-language manner. "
  +++ "Provide actionable insights and highlight important trends or patterns.".

(** Lines 41-51. *)
Fixpoint prompt_loop (slide_data : list entry) (prompt : string)
  : result string :=
  match slide_data with
  | [] => Ok prompt
  | slide :: rest =>
      t <- getitem "title" (title slide) ;;
      let prompt := prompt +++ "Slide Title: " +++ t +++ nl in
      c <- getitem "content" (content slide) ;;
      let prompt :=
        if truthy_str c then prompt +++ "Slide Content: " +++ c +++ nl
        else prompt in
      tbls <- getitem "tables" (tables slide) ;;
      prompt <-
        (if truthy_list tbls
         then tables_block tbls (prompt +++ "Slide Tables:" +++ nl)
         else Ok prompt) ;;
      prompt_loop rest (prompt +++ nl)
  end.

(** Lines 18-59: the handler logs and returns [None]. *)
Definition generate_prompt (slide_data : list entry) : M (option string) :=
  try_except
    (prompt <~ lift (prompt_loop slide_data preamble) ;;
     ret (Some (prompt +++ closing)))
    (fun e =>
       emit (LogError (TextExn "Error generating prompt: " e)) ;;;
       ret None).

Section Client.

Variable W : World.

(** Lines 62-91. *)
Definition summarize_with_azure_openai (prompt : string) : M (option string) :=
  try_except
    (let messages :=
       [("system", "You are an expert data analyst and report summarizer.");
        ("user", prompt)] in
     response <~
       call (ChatCompletionCreate (AZURE_OPENAI_DEPLOYMENT W) messages (7 # 10)%Q)
            (ChatCompletion_create W (AZURE_OPENAI_DEPLOYMENT W) messages
                                   (7 # 10)%Q) ;;
     match choices response with
     | [] => raise IndexError
     | choice :: _ =>
         let summary := message_content choice in
         let formatted_summary := fmt_opt_str summary in
         ret (Some formatted_summary)
     end)
    (fun e =>
       emit (LogError (TextExn "Error: " e)) ;;;
       ret None).

(** Lines 94-147. *)
Definition ppt_summarization (report_id : string) : M (option string) :=
  try_except
    (let directory :=
       path_join (pandas_presentation_directory W) [report_id] in
     files <~ call (ListDir directory) (listdir W directory) ;;
     let file_to_get_summarization :=
       first_pptx (pandas_presentation_directory W) report_id files in
     match file_to_get_summarization with
     | None =>
         emit (LogError (Text ("No PowerPoint file found for report ID: "
                                 +++ report_id))) ;;;
         ret None
     | Some path =>
         if negb (truthy_str path) then
           emit (LogError (Text ("No PowerPoint file found for report ID: "
                                   +++ report_id))) ;;;
           ret None
         else
           presentation <~ call (OpenPresentation path) (pptx_Presentation W path) ;;
           let slide_data := PPTDataPreprocessing.preprocess_ppt presentation in
           if negb (truthy_list slide_data) then
             emit (LogError
                     (Text "Failed to preprocess content from the presentation.")) ;;;
             ret None
           else
             emit (LogInfo (Text (nl +++ "--- Extracted Content ---" +++ nl))) ;;;
             emit (LogInfo (SlideData slide_data)) ;;;
             prompt <~ generate_prompt slide_data ;;
             match prompt with
             | None => raise TypeError
             | Some prompt =>
                 emit (LogInfo (Text ("Generated Prompt:" +++ nl
                                        +++ substring 0 100 prompt
                                        +++ "..." +++ nl))) ;;;
                 summary <~ summarize_with_azure_openai prompt ;;
                 match summary with
                 | Some s =>
                     if truthy_str s then
                       emit (LogInfo (Text ("Generated Summary:" +++ nl
                                              +++ " " +++ s))) ;;;
                       ret (Some s)
                     else
                       emit (LogError (Text "Failed to generate summary.")) ;;;
                       ret None
                 | None =>
                     emit (LogError (Text "Failed to generate summary.")) ;;;
                     ret None
                 end
             end
     end)
    (fun e =>
       emit (LogError (TextExn "An unexpected error occurred: " e)) ;;;
       ret None).

End Client.

End OpenAI.

(** ** Descriptions of the results, independent of the loops *)

Module Spec.

(** The trimmed texts of the text-frame shapes, in shape order. *)
Definition text_items (shs : list Shape) : list string :=
  map (fun sh => strip (shape_text sh)) (filter has_text_frame shs).

(** The rows of trimmed cell texts of one table. *)
Definition raw_table (t : Table) : list (list string) :=
  map (fun row => map (fun cell => strip (cell_text cell)) (cells row)) (rows t).

(** The raw tables of the table shapes reached by the [elif] of line 67. *)
Definition raw_tables (shs : list Shape) : list (list (list string)) :=
  map (fun sh => raw_table (table sh))
      (filter (fun sh => negb (has_text_frame sh) && has_table sh) shs).

(** A slide with no text frame and no table. *)
Definition blank (slide : Slide) : bool :=
  forallb (fun sh => negb (has_text_frame sh) && negb (has_table sh))
          (shapes slide).

(** The record of one slide, if it has one. *)
Definition record_of (slide : Slide) : list entry :=
  let items := text_items (shapes slide) in
  let tbls := raw_tables (shapes slide) in
  match items, tbls with
  | [], [] => []
  | _, _ =>
      [ {| title := Some (hd "Untitled Slide" items);
           content := Some (join " " (tl items));
           text := None;
           tables := Some tbls |} ]
  end.

(** The emitted blocks of the flat extractor before formatting: the index
    [idx] that [enumerate] gives a contributing slide, and its lines. *)
Fixpoint numbered_lines (to_string : pd.DataFrame -> string) (idx : nat)
    (sls : list Slide) : result (list (nat * list string)) :=
  match sls with
  | [] => Ok []
  | slide :: rest =>
      l <- PPTDataPreprocessing.slide_lines to_string slide ;;
      r <- numbered_lines to_string (S idx) rest ;;
      Ok (if truthy_list l then (idx, l) :: r else r)
  end.

(** The slide numbers written in the headers of the emitted blocks. *)
Definition emitted_numbers (bl : list (nat * list string)) : list nat :=
  map (fun b => fst b + 1) bl.

(** Numbers 1, 2, 3, ... without a gap. *)
Definition contiguous (ns : list nat) : Prop := ns = seq 1 (length ns).

(** A record without one of the keys read by Variant B's prompt builder. *)
Definition lacks_key (e : entry) : Prop :=
  title e = None \/ content e = None \/ tables e = None.

(** A record Variant B's prompt builder can serialize: the three keys are
    present and no table is without a header row. *)
Definition well_formed (e : entry) : Prop :=
  exists ti c tb,
    title e = Some ti /\ content e = Some c /\ tables e = Some tb /\
    Forall (fun t => t <> []) tb.

(** An entry Variant A's prompt builder can serialize: the key "text" is
    present and, when "tables" is present, no table is without a header
    row. *)
Definition bedrock_well_formed (e : entry) : Prop :=
  text e <> None /\
  forall tb, tables e = Some tb -> Forall (fun t => t <> []) tb.

(** The three lines [query_bedrock_model] prints for one result. *)
Definition result_prints (r : titan_result) : list event :=
  [Print ("Token count: " +++ fmt_opt_Z (tokenCount r));
   Print ("Output text: " +++ fmt_opt_str (outputText r));
   Print ("Completion reason: " +++ fmt_opt_str (completionReason r))].

(** An error written to the log. *)
Definition is_error_log (ev : event) : bool :=
  match ev with
  | LogError _ => true
  | _ => false
  end.

(** The serialized texts of the entries of [split_prompt], in order. *)
Fixpoint serialize_all (data : list entry) : result (list string) :=
  match data with
  | [] => Ok []
  | e :: rest =>
      t <- Bedrock.entry_text_of e ;;
      ts <- serialize_all rest ;;
      Ok (t :: ts)
  end.

(** One more serialized text meets the completed chunks and the running
    buffer: when appending it would exceed [max_chars], the buffer is flushed
    as a completed chunk and a new one starts with this text; otherwise the
    text joins the buffer. *)
Definition step (max_chars : Z) (st : list string * string) (t : string)
  : list string * string :=
  let '(chunks, buffer) := st in
  if (len buffer + len t >? max_chars)%Z
  then (chunks ++ [buffer], t)
  else (chunks, buffer +++ t).

Definition accumulate (max_chars : Z) (texts : list string)
  : list string * string :=
  fold_left (step max_chars) texts ([], "").

(** The final buffer is flushed when it is not empty. *)
Definition flush (st : list string * string) : list string :=
  let '(chunks, buffer) := st in
  if truthy_str buffer then chunks ++ [buffer] else chunks.

Definition split_texts (texts : list string) (max_chars : Z) : list string :=
  flush (accumulate max_chars texts).

End Spec.

(** ** Sample presentations *)

Module Examples.

Definition text_box (s : string) : Shape := mkShape true s false (mkTable []).

Definition picture : Shape := mkShape false "" false (mkTable []).

Definition table_shape (cells_text : list (list string)) : Shape :=
  mkShape false "" true
    (mkTable (map (fun r => mkRow (map mkCell r)) cells_text)).

(** Three slides, the second one holding a picture only. *)
Definition deck_with_gap : Presentation :=
  mkPresentation
    [mkSlide [text_box "A"]; mkSlide [picture]; mkSlide [text_box "B"]].

(** A table shape holding its header row only. *)
Definition header_only : Shape := table_shape [["Region"; "Opens"]].

(** A table shape with a header and two rows of data. *)
Definition opens_table : Shape :=
  table_shape [["Region"; "Opens"]; ["EU"; "10"]; ["US"; "12"]].

(** Entries of [split_prompt]: the titles make them serialize to 30, 40 and
    15 characters. *)
Definition entry30 : entry :=
  mkEntry None None (Some "Opens by region") None.

Definition entry40 : entry :=
  mkEntry None None (Some "Clicks") (Some [[["EU"; "10"]; ["US"; "12"]; ["APAC"]]]).

Definition entry15 : entry := mkEntry None None (Some "") (Some []).

(** A world with one report, "r1", whose directory holds notes and a deck;
    the chat endpoint answers with the given message content. *)
Definition sample_world (completion : option string) : World :=
  {| pandas_presentation_directory := "/data/presentations";
     AZURE_OPENAI_DEPLOYMENT := "summarizer";
     listdir := fun d =>
       if String.eqb d "/data/presentations/r1"
       then Ok ["notes.txt"; "deck.pptx"]
       else Raise (External "FileNotFoundError");
     pptx_Presentation := fun path =>
       if String.eqb path "/data/presentations/r1/deck.pptx"
       then Ok deck_with_gap
       else Raise (External "PackageNotFoundError");
     session_client := fun _ _ => Ok tt;
     invoke_model := fun _ _ _ _ =>
       Ok (mkTitanBody
             (Some [mkTitanResult (Some 12%Z) (Some "Deliverability was stable.")
                                  (Some "FINISH")]));
     ChatCompletion_create := fun _ _ _ =>
       Ok (mkChatResponse [mkChoice completion]) |}.

(** The same report directory without any deck, and then with a deck whose
    only slide holds a picture. *)
Definition world_without_deck : World :=
  {| pandas_presentation_directory := "/data/presentations";
     AZURE_OPENAI_DEPLOYMENT := "summarizer";
     listdir := fun _ => Ok ["notes.txt"; "deck.ppt"];
     pptx_Presentation := fun _ => Ok deck_with_gap;
     session_client := fun _ _ => Ok tt;
     invoke_model := fun _ _ _ _ => Ok (mkTitanBody None);
     ChatCompletion_create := fun _ _ _ => Ok (mkChatResponse []) |}.

Definition world_with_blank_deck : World :=
  {| pandas_presentation_directory := "/data/presentations";
     AZURE_OPENAI_DEPLOYMENT := "summarizer";
     listdir := fun _ => Ok ["deck.pptx"];
     pptx_Presentation := fun _ => Ok (mkPresentation [mkSlide [picture]]);
     session_client := fun _ _ => Ok tt;
     invoke_model := fun _ _ _ _ => Ok (mkTitanBody None);
     ChatCompletion_create := fun _ _ _ => Ok (mkChatResponse []) |}.

(** A rendering of frames, for the runs below. *)
Definition plain_to_string (df : pd.DataFrame) : string :=
  join ", " (pd.columns df).

End Examples.

(** * Properties *)

(** ** Strings *)

Lemma append_length (a b : string) :
  String.length (a +++ b) = String.length a + String.length b.
Proof. induction a as [|c a IH]; simpl; [reflexivity | now rewrite IH]. Qed.

Lemma append_empty_r (a : string) : a +++ "" = a.
Proof. induction a as [|c a IH]; simpl; [reflexivity | now rewrite IH]. Qed.

Lemma append_assoc (a b c : string) : (a +++ b) +++ c = a +++ b +++ c.
Proof. induction a as [|x a IH]; simpl; [reflexivity | now rewrite IH]. Qed.

Lemma len_append (a b : string) : len (a +++ b) = (len a + len b)%Z.
Proof. unfold len. rewrite append_length. lia. Qed.

Lemma len_nonneg (a : string) : (0 <= len a)%Z.
Proof. unfold len. lia. Qed.

Lemma truthy_str_append_r (a b : string) :
  truthy_str b = true -> truthy_str (a +++ b) = true.
Proof. destruct a; simpl; auto. Qed.

Lemma truthy_str_length (a : string) :
  truthy_str a = true <-> 0 < String.length a.
Proof. destruct a; simpl; split; intros; try lia; auto; discriminate. Qed.

(** ** The structured extractor *)

Import PPTDataPreprocessing.

Lemma shape_loop_spec (shs : list Shape) :
  forall slide_text slide_tables,
    shape_loop shs slide_text slide_tables =
    (slide_text ++ Spec.text_items shs, slide_tables ++ Spec.raw_tables shs).
Proof.
  unfold Spec.text_items, Spec.raw_tables.
  induction shs as [|sh shs IH]; intros st tb; simpl.
  - now rewrite !app_nil_r.
  - destruct (has_text_frame sh); simpl.
    + rewrite IH, <- app_assoc. reflexivity.
    + destruct (has_table sh); simpl.
      * rewrite IH, <- app_assoc. reflexivity.
      * apply IH.
Qed.

Lemma slide_record_spec (items : list string) (tbls : list (list (list string))) :
  slide_record items tbls =
  {| title := Some (hd "Untitled Slide" items);
     content := Some (join " " (tl items));
     text := None;
     tables := Some tbls |}.
Proof.
  unfold slide_record.
  destruct items as [|a [|b items]]; reflexivity.
Qed.

Lemma slides_loop_spec (sls : list Slide) :
  forall data, slides_loop sls data = data ++ flat_map Spec.record_of sls.
Proof.
  induction sls as [|s sls IH]; intros data; simpl.
  - now rewrite app_nil_r.
  - rewrite shape_loop_spec. simpl. unfold Spec.record_of.
    destruct (Spec.text_items (shapes s)) as [|i items] eqn:Ei;
      [destruct (Spec.raw_tables (shapes s)) as [|tb tbls] eqn:Et|]; simpl.
    + apply IH.
    + rewrite IH, <- app_assoc, slide_record_spec. reflexivity.
    + rewrite IH, <- app_assoc, slide_record_spec. reflexivity.
Qed.

Lemma preprocess_ppt_spec (p : Presentation) :
  preprocess_ppt p = flat_map Spec.record_of (slides p).
Proof. unfold preprocess_ppt. now rewrite slides_loop_spec. Qed.

Lemma blank_no_items (s : Slide) :
  Spec.blank s = true ->
  Spec.text_items (shapes s) = [] /\ Spec.raw_tables (shapes s) = [].
Proof.
  unfold Spec.blank, Spec.text_items, Spec.raw_tables.
  induction (shapes s) as [|sh shs IH]; simpl; intros H; [auto|].
  apply andb_prop in H. destruct H as [H1 H2].
  apply andb_prop in H1. destruct H1 as [Ht Hb].
  apply negb_true_iff in Ht. apply negb_true_iff in Hb.
  rewrite Ht, Hb. simpl. auto.
Qed.

(** C7.  A slide of [preprocess_ppt] without text items and without tables
    gives no record.  Any other slide gives one record, at its place among
    the records of the slides before and after it: the title is the first
    trimmed text item, or "Untitled Slide" when the slide has no text frame;
    the content is the remaining text items joined by one space, and the
    empty string when there are fewer than two text items.  Text items
    "Q3 Report" and "Intro line" give title "Q3 Report" and content
    "Intro line"; a single text item gives content "". *)
Theorem preprocess_ppt_title_and_content :
  forall (before after : list Slide) (s : Slide),
    let items := Spec.text_items (shapes s) in
    let tbls := Spec.raw_tables (shapes s) in
    preprocess_ppt (mkPresentation (before ++ s :: after)) =
      preprocess_ppt (mkPresentation before)
      ++ match items, tbls with
         | [], [] => []
         | _, _ =>
             [ {| title := Some (match items with
                                 | first :: _ => first
                                 | [] => "Untitled Slide"
                                 end);
                  content := Some (match items with
                                   | _ :: ((_ :: _) as remaining) =>
                                       join " " remaining
                                   | _ => ""
                                   end);
                  text := None;
                  tables := Some tbls |} ]
         end
      ++ preprocess_ppt (mkPresentation after)
    /\ preprocess_ppt
         (mkPresentation
            [mkSlide [mkShape true "  Q3 Report " false (mkTable []);
                      mkShape true "Intro line" false (mkTable [])]])
       = [ {| title := Some "Q3 Report"; content := Some "Intro line";
              text := None; tables := Some [] |} ]
    /\ preprocess_ppt
         (mkPresentation [mkSlide [mkShape true "Q3 Report" false (mkTable [])]])
       = [ {| title := Some "Q3 Report"; content := Some "";
              text := None; tables := Some [] |} ]
    /\ preprocess_ppt
         (mkPresentation
            [mkSlide [mkShape false "" true
                        (mkTable [mkRow [mkCell " a "; mkCell "b"]])]])
       = [ {| title := Some "Untitled Slide"; content := Some "";
              text := None; tables := Some [[["a"; "b"]]] |} ].
Proof.
  intros before after s items tbls.
  split; [|repeat split; reflexivity].
  rewrite !preprocess_ppt_spec. simpl.
  rewrite flat_map_app. simpl. f_equal. f_equal.
  unfold Spec.record_of. fold items. fold tbls.
  destruct items as [|a [|b items']]; destruct tbls; reflexivity.
Qed.

(** ** The flat extractor *)

Section FlatExtractor.

Variable to_string : pd.DataFrame -> string.

Lemma content_loop_spec (sls : list Slide) :
  forall idx overall_content,
    content_loop to_string idx sls overall_content =
    (bl <- Spec.numbered_lines to_string idx sls ;;
     Ok (overall_content ++ map (fun b => slide_block (fst b) (snd b)) bl)).
Proof.
  induction sls as [|s sls IH]; intros idx acc; simpl.
  - now rewrite app_nil_r.
  - destruct (slide_lines to_string s) as [l|e]; simpl; [|reflexivity].
    destruct (truthy_list l); rewrite IH;
      destruct (Spec.numbered_lines to_string (S idx) sls) as [r|e];
      simpl; try reflexivity.
    now rewrite <- app_assoc.
Qed.

Lemma numbered_lines_In (sls : list Slide) :
  forall idx bl,
    Spec.numbered_lines to_string idx sls = Ok bl ->
    forall i l,
      In (i, l) bl <->
      idx <= i /\
      exists s, nth_error sls (i - idx) = Some s /\
                slide_lines to_string s = Ok l /\ l <> [].
Proof.
  induction sls as [|s sls IH]; intros idx bl H i l; simpl in H.
  - inversion H; subst. simpl. split; [tauto|].
    intros [_ [s [Hn _]]]. destruct (i - idx); discriminate.
  - destruct (slide_lines to_string s) as [l0|e] eqn:El; simpl in H;
      [|discriminate].
    destruct (Spec.numbered_lines to_string (S idx) sls) as [r|e] eqn:Er;
      simpl in H; [|discriminate].
    specialize (IH (S idx) r Er i l).
    assert (Htail : In (i, l) r <->
              idx < i /\ exists s', nth_error (s :: sls) (i - idx) = Some s' /\
                slide_lines to_string s' = Ok l /\ l <> []).
    { rewrite IH. split.
      - intros [Hle [s' [Hn Hs]]]. split; [lia|]. exists s'. split; [|exact Hs].
        replace (i - idx) with (S (i - S idx)) by lia. exact Hn.
      - intros [Hlt [s' [Hn Hs]]]. split; [lia|]. exists s'. split; [|exact Hs].
        replace (i - idx) with (S (i - S idx)) in Hn by lia. exact Hn. }
    assert (Hhead : forall s', nth_error (s :: sls) (idx - idx) = Some s' -> s' = s).
    { rewrite Nat.sub_diag. simpl. congruence. }
    inversion H; subst bl; clear H.
    destruct l0 as [|x l0]; simpl.
    + rewrite Htail. split.
      * intros [Hlt Hex]. split; [lia | exact Hex].
      * intros [Hle [s' [Hn [Hs Hl]]]].
        destruct (Nat.eq_dec i idx) as [->|Hne].
        -- apply Hhead in Hn. subst s'. rewrite El in Hs. congruence.
        -- split; [lia|]. exists s'. auto.
    + rewrite Htail. split.
      * intros [Heq | [Hlt Hex]].
        -- inversion Heq; subst. split; [lia|]. exists s.
           rewrite Nat.sub_diag. simpl. repeat split; auto. discriminate.
        -- split; [lia | exact Hex].
      * intros [Hle [s' [Hn [Hs Hl]]]].
        destruct (Nat.eq_dec i idx) as [->|Hne].
        -- left. apply Hhead in Hn. subst s'. rewrite El in Hs.
           congruence.
        -- right. split; [lia|]. exists s'. auto.
Qed.

Lemma numbered_lines_lower (sls : list Slide) :
  forall idx bl,
    Spec.numbered_lines to_string idx sls = Ok bl ->
    Forall (fun b => idx <= fst b) bl.
Proof.
  intros idx bl H. apply Forall_forall. intros [i l] Hin.
  apply (numbered_lines_In sls idx bl H) in Hin. simpl. tauto.
Qed.

Lemma numbered_lines_sorted (sls : list Slide) :
  forall idx bl,
    Spec.numbered_lines to_string idx sls = Ok bl ->
    StronglySorted lt (map fst bl).
Proof.
  induction sls as [|s sls IH]; intros idx bl H; simpl in H.
  - inversion H. constructor.
  - destruct (slide_lines to_string s) as [l0|e]; simpl in H; [|discriminate].
    destruct (Spec.numbered_lines to_string (S idx) sls) as [r|e] eqn:Er;
      simpl in H; [|discriminate].
    inversion H; subst bl; clear H.
    destruct (truthy_list l0); [|eauto].
    simpl. constructor; [eauto|].
    apply Forall_map. eapply Forall_impl; [|eapply numbered_lines_lower; eauto].
    simpl. intros; lia.
Qed.

Lemma extract_tables_no_table (shs : list Shape) :
  forallb (fun sh => negb (has_table sh)) shs = true ->
  forall acc, extract_tables_loop shs acc = Ok acc.
Proof.
  induction shs as [|sh shs IH]; simpl; intros H acc; [reflexivity|].
  apply andb_prop in H. destruct H as [Hb H].
  apply negb_true_iff in Hb. rewrite Hb. auto.
Qed.

Lemma text_loop_spec (shs : list Shape) :
  forall acc, text_loop shs acc = acc ++ Spec.text_items shs.
Proof.
  unfold Spec.text_items.
  induction shs as [|sh shs IH]; intros acc; simpl.
  - now rewrite app_nil_r.
  - destruct (has_text_frame sh); simpl; [|apply IH].
    rewrite IH, <- app_assoc. reflexivity.
Qed.

Lemma blank_slide_lines (s : Slide) :
  Spec.blank s = true -> slide_lines to_string s = Ok [].
Proof.
  intros H. unfold slide_lines, extract_tables_from_slide.
  rewrite text_loop_spec.
  destruct (blank_no_items s H) as [-> _]. simpl.
  rewrite extract_tables_no_table; [reflexivity|].
  unfold Spec.blank in H. rewrite forallb_forall in *.
  intros sh Hin. specialize (H sh Hin).
  apply andb_prop in H. tauto.
Qed.

End FlatExtractor.

Lemma sorted_shift (l : list nat) :
  StronglySorted lt l -> StronglySorted lt (map (fun x => x + 1) l).
Proof.
  induction 1 as [|a l Hs IH Hall]; simpl; constructor; auto.
  apply Forall_map. eapply Forall_impl; [|exact Hall].
  simpl. intros; lia.
Qed.

Lemma emitted_numbers_shift (bl : list (nat * list string)) :
  Spec.emitted_numbers bl = map (fun x => x + 1) (map fst bl).
Proof. unfold Spec.emitted_numbers. now rewrite map_map. Qed.

(** C3, as stated, fails.  In the deck of three slides whose second slide has
    neither text frame nor table, the flat extractor writes "Slide 1:" and
    "Slide 3:": the numbers of the emitted blocks are 1 and 3, not 1 and 2. *)
Lemma flat_extractor_numbers_skip :
  nth_error (slides Examples.deck_with_gap) 1 = Some (mkSlide [Examples.picture])
  /\ Spec.blank (mkSlide [Examples.picture]) = true
  /\ extract_content_from_ppt Examples.plain_to_string Examples.deck_with_gap
     = Ok ("Slide 1:" +++ nl +++ "A" +++ nl +++ nl +++ "Slide 3:" +++ nl +++ "B")
  /\ Spec.numbered_lines Examples.plain_to_string 0
       (slides Examples.deck_with_gap) = Ok [(0, ["A"]); (2, ["B"])]
  /\ Spec.emitted_numbers [(0, ["A"]); (2, ["B"])] = [1; 3]
  /\ ~ Spec.contiguous (Spec.emitted_numbers [(0, ["A"]); (2, ["B"])]).
Proof.
  repeat split; try reflexivity.
  unfold Spec.contiguous. simpl. discriminate.
Qed.

(** C3, amended.  A slide K without text frame and without table has no
    record in the output of [preprocess_ppt] and no block in the output of
    [extract_content_from_ppt].  The number written in the header of an
    emitted block is the 1-based position of its slide in the presentation:
    the numbers increase strictly, and a block numbered n is emitted exactly
    when slide n contributes at least one line. *)
Theorem skipped_slide_and_block_numbers :
  forall (to_string : pd.DataFrame -> string) (p : Presentation),
    (forall before K after,
        slides p = before ++ K :: after ->
        Spec.blank K = true ->
        preprocess_ppt p =
          preprocess_ppt (mkPresentation before)
          ++ preprocess_ppt (mkPresentation after))
    /\ (forall bl,
          Spec.numbered_lines to_string 0 (slides p) = Ok bl ->
          extract_content_from_ppt to_string p =
            Ok (join (nl +++ nl)
                     (map (fun b => "Slide " +++ str_of_nat (fst b + 1) +++ ":"
                                      +++ nl +++ join nl (snd b)) bl))
          /\ StronglySorted lt (Spec.emitted_numbers bl)
          /\ (forall n l,
                In (n, l) (map (fun b => (fst b + 1, snd b)) bl) <->
                1 <= n /\
                exists s, nth_error (slides p) (n - 1) = Some s /\
                          slide_lines to_string s = Ok l /\ l <> [])
          /\ (forall K, nth_error (slides p) K <> None ->
                (forall s, nth_error (slides p) K = Some s -> Spec.blank s = true) ->
                ~ In (K + 1) (Spec.emitted_numbers bl))).
Proof.
  intros to_string p. split.
  - intros before K after Hs HK.
    rewrite !preprocess_ppt_spec, Hs. simpl.
    rewrite flat_map_app. simpl.
    unfold Spec.record_of at 2.
    destruct (blank_no_items K HK) as [-> ->]. reflexivity.
  - intros bl Hbl.
    assert (Hin : forall n l,
               In (n, l) (map (fun b => (fst b + 1, snd b)) bl) <->
               1 <= n /\
               exists s, nth_error (slides p) (n - 1) = Some s /\
                         slide_lines to_string s = Ok l /\ l <> []).
    { intros n l. rewrite in_map_iff. split.
      - intros [[i l'] [Heq Hi]]. simpl in Heq. inversion Heq; subst.
        apply (numbered_lines_In to_string _ _ _ Hbl) in Hi.
        destruct Hi as [_ Hex]. rewrite Nat.sub_0_r in Hex.
        split; [lia|]. now replace (i + 1 - 1) with i by lia.
      - intros [Hn Hex]. exists (n - 1, l). simpl. split.
        + f_equal. lia.
        + apply (numbered_lines_In to_string _ _ _ Hbl).
          rewrite Nat.sub_0_r. split; [lia | exact Hex]. }
    split; [|split; [|split; [exact Hin|]]].
    + unfold extract_content_from_ppt.
      rewrite content_loop_spec, Hbl. reflexivity.
    + rewrite emitted_numbers_shift. apply sorted_shift.
      exact (numbered_lines_sorted to_string _ _ _ Hbl).
    + intros K HK Hblank Hcontra.
      unfold Spec.emitted_numbers in Hcontra. apply in_map_iff in Hcontra.
      destruct Hcontra as [[i l] [Heq Hi]]. simpl in Heq.
      assert (i = K) by lia. subst i.
      apply (numbered_lines_In to_string _ _ _ Hbl) in Hi.
      destruct Hi as [_ [s [Hn [Hl Hne]]]]. rewrite Nat.sub_0_r in Hn.
      specialize (Hblank s Hn).
      rewrite (blank_slide_lines to_string s Hblank) in Hl. congruence.
Qed.

Lemma skipped_slide_and_block_numbers_witness :
  preprocess_ppt Examples.deck_with_gap =
    preprocess_ppt (mkPresentation [mkSlide [Examples.text_box "A"]])
    ++ preprocess_ppt (mkPresentation [mkSlide [Examples.text_box "B"]])
  /\ extract_content_from_ppt Examples.plain_to_string Examples.deck_with_gap =
       Ok ("Slide 1:" +++ nl +++ "A" +++ nl +++ nl +++ "Slide 3:" +++ nl +++ "B").
Proof.
  destruct (skipped_slide_and_block_numbers
              Examples.plain_to_string Examples.deck_with_gap) as [H1 H2].
  split.
  - apply (H1 [mkSlide [Examples.text_box "A"]] (mkSlide [Examples.picture])
              [mkSlide [Examples.text_box "B"]]); reflexivity.
  - destruct (H2 [(0, ["A"]); (2, ["B"])] eq_refl) as [H _]. exact H.
Defined.

(** ** Tables of a slide *)

Lemma extract_tables_loop_acc (shs : list Shape) :
  forall acc,
    extract_tables_loop shs acc =
    (t <- extract_tables_loop shs [] ;; Ok (acc ++ t)).
Proof.
  induction shs as [|sh shs IH]; intros acc; simpl.
  - now rewrite app_nil_r.
  - destruct (has_table sh); [|apply IH].
    destruct (table_rows (table sh)) as [|header data_rows]; [apply IH|].
    destruct (pd.new_DataFrame data_rows header) as [df|e]; simpl; [|reflexivity].
    rewrite IH. rewrite (IH [df]).
    destruct (extract_tables_loop shs []) as [t|e]; simpl; [|reflexivity].
    now rewrite <- app_assoc.
Qed.

Lemma extract_tables_app (xs ys : list Shape) :
  extract_tables_from_slide (mkSlide (xs ++ ys)) =
  (a <- extract_tables_from_slide (mkSlide xs) ;;
   b <- extract_tables_from_slide (mkSlide ys) ;;
   Ok (a ++ b)).
Proof.
  unfold extract_tables_from_slide. simpl.
  induction xs as [|sh xs IH]; simpl.
  - destruct (extract_tables_loop ys []); reflexivity.
  - destruct (has_table sh); [|apply IH].
    destruct (table_rows (table sh)) as [|header data_rows]; [apply IH|].
    destruct (pd.new_DataFrame data_rows header) as [df|e]; simpl; [|reflexivity].
    rewrite (extract_tables_loop_acc (xs ++ ys)), IH.
    rewrite (extract_tables_loop_acc xs [df]).
    destruct (extract_tables_loop xs []) as [a|e]; simpl; [|reflexivity].
    destruct (extract_tables_loop ys []) as [b|e]; simpl; reflexivity.
Qed.

Lemma extract_tables_one (sh : Shape) :
  extract_tables_from_slide (mkSlide [sh]) =
  if has_table sh then
    match table_rows (table sh) with
    | [] => Ok []
    | header :: data_rows => df <- pd.new_DataFrame data_rows header ;; Ok [df]
    end
  else Ok [].
Proof.
  unfold extract_tables_from_slide. simpl.
  destruct (has_table sh); [|reflexivity].
  destruct (table_rows (table sh)) as [|header data_rows]; [reflexivity|].
  destruct (pd.new_DataFrame data_rows header); reflexivity.
Qed.

Lemma extract_tables_around (before after : list Shape) (sh : Shape)
    (a b : list pd.DataFrame) :
  extract_tables_from_slide (mkSlide before) = Ok a ->
  extract_tables_from_slide (mkSlide after) = Ok b ->
  extract_tables_from_slide (mkSlide (before ++ sh :: after)) =
  (t <- extract_tables_from_slide (mkSlide [sh]) ;; Ok (a ++ t ++ b)).
Proof.
  intros Ha Hb.
  rewrite extract_tables_app, Ha. simpl.
  change (sh :: after) with ([sh] ++ after).
  rewrite extract_tables_app, Hb.
  destruct (extract_tables_from_slide (mkSlide [sh])); reflexivity.
Qed.

Lemma list_max_const (n : nat) (l : list nat) :
  l <> [] -> Forall (fun x => x = n) l -> list_max l = n.
Proof.
  intros Hne H. induction H as [|x l Hx H IH]; [congruence|].
  change (list_max (x :: l)) with (Nat.max x (list_max l)). subst x.
  destruct l as [|y l]; [simpl; lia|].
  rewrite IH by discriminate. lia.
Qed.

Lemma pad_exact (row : list string) : pd.pad (length row) row = map Some row.
Proof. unfold pd.pad. rewrite Nat.sub_diag. simpl. apply app_nil_r. Qed.

Lemma DataFrame_rectangular (data : list (list string)) (cols : list string) :
  Forall (fun r => length r = length cols) data ->
  pd.new_DataFrame data cols = Ok (pd.mkDataFrame cols (map (map Some) data)).
Proof.
  intros H. destruct data as [|r data]; [reflexivity|].
  unfold pd.new_DataFrame.
  rewrite (list_max_const (length cols)).
  - rewrite Nat.eqb_refl. f_equal. f_equal.
    apply map_ext_in. intros row Hin.
    rewrite Forall_forall in H. rewrite <- (H row Hin). apply pad_exact.
  - discriminate.
  - apply Forall_map. exact H.
Qed.

Lemma table_rows_length (t : Table) :
  length (table_rows t) = length (rows t).
Proof. unfold table_rows. apply length_map. Qed.

Lemma extract_tables_count (shs : list Shape) :
  forall acc dfs,
    extract_tables_loop shs acc = Ok dfs ->
    length dfs =
    length acc +
    length (filter (fun sh => has_table sh && truthy_list (rows (table sh))) shs).
Proof.
  induction shs as [|sh shs IH]; intros acc dfs H; simpl in *.
  - inversion H. lia.
  - destruct (has_table sh); simpl; [|auto].
    unfold table_rows in H.
    destruct (rows (table sh)) as [|r rs]; simpl in *; [auto|].
    destruct (pd.new_DataFrame _ _) as [df|e]; simpl in H; [|discriminate].
    apply IH in H. rewrite H, length_app. simpl. lia.
Qed.

(** C5, as stated, fails.  A table shape consisting solely of its header row
    has no data row, and still [extract_tables_from_slide] returns an entry
    for it: the frame with that header and an empty body. *)
Lemma header_only_table_gets_entry :
  length (rows (table Examples.header_only)) = 1
  /\ extract_tables_from_slide (mkSlide [Examples.header_only]) =
       Ok [pd.mkDataFrame ["Region"; "Opens"] []]
  /\ extract_tables_from_slide (mkSlide [Examples.header_only]) <> Ok [].
Proof. repeat split; try reflexivity. discriminate. Qed.

(** C5, amended.  [extract_tables_from_slide] produces an entry exactly for
    the table shapes having at least one row, the header row included.  A
    shape that is no table, or a table shape without any row, contributes no
    entry; a table shape consisting solely of a header row contributes the
    frame with that header and an empty body; and the number of entries
    returned is the number of table shapes with at least one row. *)
Theorem tables_with_a_row_get_an_entry :
  forall (before after : list Shape) (sh : Shape) (a b : list pd.DataFrame),
    extract_tables_from_slide (mkSlide before) = Ok a ->
    extract_tables_from_slide (mkSlide after) = Ok b ->
    (has_table sh = false \/ rows (table sh) = [] ->
     extract_tables_from_slide (mkSlide (before ++ sh :: after)) = Ok (a ++ b))
    /\ (forall r,
          has_table sh = true -> rows (table sh) = [r] ->
          extract_tables_from_slide (mkSlide (before ++ sh :: after)) =
            Ok (a ++ pd.mkDataFrame (map cell_text (cells r)) [] :: b))
    /\ (forall dfs,
          extract_tables_from_slide (mkSlide (before ++ sh :: after)) = Ok dfs ->
          length dfs =
          length (filter (fun s => has_table s && truthy_list (rows (table s)))
                         (before ++ sh :: after))).
Proof.
  intros before after sh a b Ha Hb. split; [|split].
  - intros H. rewrite (extract_tables_around before after sh a b Ha Hb).
    rewrite extract_tables_one.
    destruct H as [-> | H]; [reflexivity|].
    unfold table_rows. rewrite H. simpl. now destruct (has_table sh).
  - intros r Ht Hr. rewrite (extract_tables_around before after sh a b Ha Hb).
    rewrite extract_tables_one, Ht. unfold table_rows. rewrite Hr.
    reflexivity.
  - intros dfs H. unfold extract_tables_from_slide in H. simpl in H.
    apply extract_tables_count in H. exact H.
Qed.

Lemma tables_with_a_row_get_an_entry_witness :
  extract_tables_from_slide
    (mkSlide ([Examples.text_box "Q3"] ++ Examples.header_only
                :: [Examples.picture])) =
  Ok ([] ++ pd.mkDataFrame ["Region"; "Opens"] [] :: []).
Proof.
  destruct (tables_with_a_row_get_an_entry
              [Examples.text_box "Q3"] [Examples.picture] Examples.header_only
              [] [] eq_refl eq_refl) as [_ [H _]].
  exact (H (mkRow [mkCell "Region"; mkCell "Opens"]) eq_refl eq_refl).
Defined.

(** C6.  A table shape with N rows, all of the width of the first one, gives
    one frame, at its place among the frames of the other shapes of the
    slide: its header is row 0 of the table and its body has the N-1
    remaining rows, cell for cell. *)
Theorem rectangular_table_header_and_body :
  forall (before after : list Shape) (sh : Shape) (a b : list pd.DataFrame)
         (header : list string) (data_rows : list (list string)),
    extract_tables_from_slide (mkSlide before) = Ok a ->
    extract_tables_from_slide (mkSlide after) = Ok b ->
    has_table sh = true ->
    table_rows (table sh) = header :: data_rows ->
    Forall (fun r => length r = length header) data_rows ->
    exists df,
      extract_tables_from_slide (mkSlide (before ++ sh :: after)) =
        Ok (a ++ df :: b)
      /\ pd.columns df = header
      /\ length (pd.body df) = length (rows (table sh)) - 1
      /\ pd.body df = map (map Some) data_rows.
Proof.
  intros before after sh a b header data_rows Ha Hb Ht Hr Hrect.
  exists (pd.mkDataFrame header (map (map Some) data_rows)).
  split; [|split; [reflexivity|split; [|reflexivity]]].
  - rewrite (extract_tables_around before after sh a b Ha Hb).
    rewrite extract_tables_one, Ht, Hr.
    rewrite (DataFrame_rectangular data_rows header Hrect). reflexivity.
  - simpl. rewrite length_map, <- table_rows_length, Hr. simpl. lia.
Qed.

Lemma rectangular_table_header_and_body_witness :
  exists df,
    extract_tables_from_slide
      (mkSlide ([Examples.header_only] ++ Examples.opens_table
                  :: [Examples.picture])) =
      Ok ([pd.mkDataFrame ["Region"; "Opens"] []] ++ df :: [])
    /\ pd.columns df = ["Region"; "Opens"]
    /\ length (pd.body df) = length (rows (table Examples.opens_table)) - 1
    /\ pd.body df = map (map Some) [["EU"; "10"]; ["US"; "12"]].
Proof.
  apply (rectangular_table_header_and_body
           [Examples.header_only] [Examples.picture] Examples.opens_table
           [pd.mkDataFrame ["Region"; "Opens"] []] []
           ["Region"; "Opens"] [["EU"; "10"]; ["US"; "12"]]);
    try reflexivity.
  repeat constructor.
Defined.

(** ** Chunking *)

Import Bedrock.

Lemma split_loop_spec (data : list entry) (max_chars : Z) :
  forall chunks current_chunk,
    split_loop data max_chars chunks current_chunk =
    (texts <- Spec.serialize_all data ;;
     Ok (fold_left (Spec.step max_chars) texts (chunks, current_chunk))).
Proof.
  induction data as [|e data IH]; intros chunks cur; simpl; [reflexivity|].
  destruct (entry_text_of e) as [t|x]; simpl; [|reflexivity].
  destruct (len cur + len t >? max_chars)%Z eqn:E; rewrite IH;
    destruct (Spec.serialize_all data) as [ts|x]; simpl; try reflexivity;
    now rewrite E.
Qed.

Lemma split_prompt_spec (data : list entry) (max_chars : Z) :
  split_prompt data max_chars =
  (texts <- Spec.serialize_all data ;; Ok (Spec.split_texts texts max_chars)).
Proof.
  unfold split_prompt. rewrite split_loop_spec.
  destruct (Spec.serialize_all data) as [ts|x]; simpl; [|reflexivity].
  unfold Spec.split_texts, Spec.flush, Spec.accumulate.
  destruct (fold_left _ ts _) as [chunks cur].
  destruct (truthy_str cur); reflexivity.
Qed.

Lemma serialize_all_app (xs ys : list entry) :
  Spec.serialize_all (xs ++ ys) =
  (a <- Spec.serialize_all xs ;; b <- Spec.serialize_all ys ;; Ok (a ++ b)).
Proof.
  induction xs as [|e xs IH]; simpl.
  - destruct (Spec.serialize_all ys); reflexivity.
  - destruct (entry_text_of e) as [t|x]; simpl; [|reflexivity].
    rewrite IH.
    destruct (Spec.serialize_all xs) as [a|x]; simpl; [|reflexivity].
    destruct (Spec.serialize_all ys) as [b|x]; simpl; reflexivity.
Qed.

Lemma accumulate_snoc (max_chars : Z) (texts : list string) (t : string) :
  Spec.accumulate max_chars (texts ++ [t]) =
  Spec.step max_chars (Spec.accumulate max_chars texts) t.
Proof. unfold Spec.accumulate. now rewrite fold_left_app. Qed.

(** Completed chunks are never revised. *)
Lemma chunks_grow (max_chars : Z) (texts : list string) :
  forall chunks buffer,
  exists more buffer',
    fold_left (Spec.step max_chars) texts (chunks, buffer) =
    (chunks ++ more, buffer').
Proof.
  induction texts as [|t texts IH]; intros chunks buffer; simpl.
  - exists [], buffer. now rewrite app_nil_r.
  - destruct (len buffer + len t >? max_chars)%Z.
    + destruct (IH (chunks ++ [buffer]) t) as [more [b' H]].
      exists (buffer :: more), b'. rewrite H, <- app_assoc. reflexivity.
    + apply IH.
Qed.

Lemma rows_text_length (table : list (list string)) :
  forall acc, String.length acc <= String.length (rows_text table acc).
Proof.
  induction table as [|row table IH]; intros acc; simpl; [lia|].
  etransitivity; [|apply IH]. rewrite append_length. lia.
Qed.

Lemma tables_text_length (tbls : list (list (list string))) :
  forall acc, String.length acc <= String.length (tables_text tbls acc).
Proof.
  induction tbls as [|table tbls IH]; intros acc; simpl; [lia|].
  etransitivity; [apply (rows_text_length table)|apply IH].
Qed.

(** Every entry serializes to at least the 15 characters of its frame. *)
Lemma entry_text_length (e : entry) (t : string) :
  entry_text_of e = Ok t -> 15 <= String.length t.
Proof.
  unfold entry_text_of. destruct (text e) as [ti|]; simpl; [|discriminate].
  intros H. inversion H; subst; clear H.
  rewrite append_length.
  pose proof (tables_text_length
                (match tables e with Some tbls => tbls | None => [] end)
                ("Slide Title: " +++ ti +++ nl)) as Hl.
  rewrite !append_length in Hl. simpl in *. lia.
Qed.

Lemma oversized_text_own_chunk (max_chars : Z) (before after : list string)
    (t : string) :
  truthy_str t = true ->
  (len t > max_chars)%Z ->
  exists b a, Spec.split_texts (before ++ t :: after) max_chars = b ++ t :: a.
Proof.
  intros Ht Hlen. unfold Spec.split_texts, Spec.accumulate.
  rewrite fold_left_app.
  destruct (fold_left (Spec.step max_chars) before ([], "")) as [c cur].
  simpl.
  assert (E : (len cur + len t >? max_chars)%Z = true).
  { rewrite Z.gtb_ltb. apply Z.ltb_lt. pose proof (len_nonneg cur). lia. }
  rewrite E. destruct after as [|t' after]; simpl.
  - rewrite Ht. exists (c ++ [cur]), []. reflexivity.
  - assert (E' : (len t + len t' >? max_chars)%Z = true).
    { rewrite Z.gtb_ltb. apply Z.ltb_lt. pose proof (len_nonneg t'). lia. }
    rewrite E'.
    destruct (chunks_grow max_chars after ((c ++ [cur]) ++ [t]) t')
      as [more [b' H]].
    rewrite H. unfold Spec.flush.
    destruct (truthy_str b').
    + exists (c ++ [cur]), (more ++ [b']).
      rewrite <- !app_assoc. reflexivity.
    + exists (c ++ [cur]), more. rewrite <- !app_assoc. reflexivity.
Qed.

Lemma first_oversized_empty_chunk (max_chars : Z) (t : string)
    (rest : list string) :
  truthy_str t = true ->
  (len t > max_chars)%Z ->
  exists cs, Spec.split_texts (t :: rest) max_chars = "" :: cs.
Proof.
  intros Ht Hlen. unfold Spec.split_texts, Spec.accumulate.
  change (fold_left (Spec.step max_chars) (t :: rest) ([], ""))
    with (fold_left (Spec.step max_chars) rest (Spec.step max_chars ([], "") t)).
  assert (Hs : Spec.step max_chars ([], "") t = ([] ++ [""], t)).
  { unfold Spec.step.
    assert (E : (len "" + len t >? max_chars)%Z = true).
    { rewrite Z.gtb_ltb. apply Z.ltb_lt. unfold len at 1. simpl. lia. }
    now rewrite E. }
  rewrite Hs.
  destruct (chunks_grow max_chars rest ([] ++ [""]) t) as [more [b' H]].
  rewrite H. simpl. destruct (truthy_str b'); eauto.
Qed.

Lemma two_texts_split (max_chars : Z) (t1 t2 : string) :
  (len t1 <= max_chars)%Z -> (len t1 + len t2 > max_chars)%Z ->
  truthy_str t2 = true ->
  Spec.split_texts [t1; t2] max_chars = [t1; t2].
Proof.
  intros H1 H2 Ht. unfold Spec.split_texts, Spec.accumulate, fold_left, Spec.step.
  assert (E1 : (len "" + len t1 >? max_chars)%Z = false).
  { rewrite Z.gtb_ltb. apply Z.ltb_ge. unfold len at 1. simpl. lia. }
  rewrite E1. change ("" +++ t1) with t1.
  assert (E2 : (len t1 + len t2 >? max_chars)%Z = true).
  { rewrite Z.gtb_ltb. apply Z.ltb_lt. lia. }
  rewrite E2. unfold Spec.flush. now rewrite Ht.
Qed.

Lemma two_texts_merge (max_chars : Z) (t1 t2 : string) :
  (len t1 + len t2 <= max_chars)%Z ->
  truthy_str t1 = true ->
  Spec.split_texts [t1; t2] max_chars = [t1 +++ t2].
Proof.
  intros H Ht. unfold Spec.split_texts, Spec.accumulate, fold_left, Spec.step.
  assert (E1 : (len "" + len t1 >? max_chars)%Z = false).
  { rewrite Z.gtb_ltb. apply Z.ltb_ge. unfold len at 1. simpl.
    pose proof (len_nonneg t2). lia. }
  rewrite E1. change ("" +++ t1) with t1.
  assert (E2 : (len t1 + len t2 >? max_chars)%Z = false).
  { rewrite Z.gtb_ltb. apply Z.ltb_ge. lia. }
  rewrite E2. unfold Spec.flush.
  destruct t1; [discriminate | reflexivity].
Qed.

Lemma truthy_of_len (t : string) : (0 < len t)%Z -> truthy_str t = true.
Proof. intros H. apply truthy_str_length. unfold len in H. lia. Qed.

Lemma entry_text_truthy (e : entry) (t : string) :
  entry_text_of e = Ok t -> truthy_str t = true.
Proof.
  intros H. apply entry_text_length in H. apply truthy_str_length. lia.
Qed.

Lemma serialize_two (e1 e2 : entry) (t1 t2 : string) :
  entry_text_of e1 = Ok t1 -> entry_text_of e2 = Ok t2 ->
  Spec.serialize_all [e1; e2] = Ok [t1; t2].
Proof. intros H1 H2. simpl. now rewrite H1, H2. Qed.

Lemma serialize_all_total (data : list entry) :
  Forall (fun e => text e <> None) data ->
  exists texts, Spec.serialize_all data = Ok texts.
Proof.
  induction 1 as [|e data He H IH]; simpl; [eauto|].
  destruct IH as [ts ->]. unfold entry_text_of.
  destruct (text e); [|congruence]. simpl. eauto.
Qed.

(** C4.  [split_prompt] runs the accumulation of the serialized texts: the
    buffer is flushed and a new one started exactly when the length of the
    buffer plus the length of the next serialized text exceeds [max_chars],
    and the final buffer is flushed when it is not empty.  With
    [max_chars = 50], entries serializing to 30 and 40 characters give two
    chunks and texts of 10 and 10 characters give one merged chunk, as do any
    two entries that fit together.  An entry whose serialized text alone
    exceeds [max_chars] is placed whole into a chunk of its own, longer than
    the limit. *)
Theorem split_prompt_chunking :
  (forall data max_chars texts,
      Spec.serialize_all data = Ok texts ->
      split_prompt data max_chars =
        Ok (Spec.flush (Spec.accumulate max_chars texts)))
  /\ (forall max_chars texts t,
         Spec.accumulate max_chars (texts ++ [t]) =
         let '(chunks, buffer) := Spec.accumulate max_chars texts in
         if (len buffer + len t >? max_chars)%Z
         then (chunks ++ [buffer], t)
         else (chunks, buffer +++ t))
  /\ (forall e1 e2 t1 t2,
         entry_text_of e1 = Ok t1 -> entry_text_of e2 = Ok t2 ->
         len t1 = 30%Z -> len t2 = 40%Z ->
         split_prompt [e1; e2] 50 = Ok [t1; t2])
  /\ (forall t1 t2,
         len t1 = 10%Z -> len t2 = 10%Z ->
         Spec.split_texts [t1; t2] 50 = [t1 +++ t2])
  /\ (forall e1 e2 t1 t2 max_chars,
         entry_text_of e1 = Ok t1 -> entry_text_of e2 = Ok t2 ->
         (len t1 + len t2 <= max_chars)%Z ->
         split_prompt [e1; e2] max_chars = Ok [t1 +++ t2])
  /\ (forall before e after max_chars texts t,
         Spec.serialize_all (before ++ e :: after) = Ok texts ->
         entry_text_of e = Ok t ->
         (len t > max_chars)%Z ->
         exists b a,
           split_prompt (before ++ e :: after) max_chars = Ok (b ++ t :: a)).
Proof.
  repeat match goal with |- _ /\ _ => split end.
  - intros data max_chars texts H. now rewrite split_prompt_spec, H.
  - intros max_chars texts t. rewrite accumulate_snoc. reflexivity.
  - intros e1 e2 t1 t2 H1 H2 L1 L2.
    rewrite split_prompt_spec, (serialize_two e1 e2 t1 t2 H1 H2). simpl.
    f_equal. apply two_texts_split; try lia.
    apply truthy_of_len. lia.
  - intros t1 t2 L1 L2. apply two_texts_merge; [lia|].
    apply truthy_of_len. lia.
  - intros e1 e2 t1 t2 max_chars H1 H2 L.
    rewrite split_prompt_spec, (serialize_two e1 e2 t1 t2 H1 H2). simpl.
    f_equal. apply two_texts_merge; [exact L|].
    exact (entry_text_truthy e1 t1 H1).
  - intros before e after max_chars texts t H He L.
    rewrite split_prompt_spec. rewrite serialize_all_app in *.
    destruct (Spec.serialize_all before) as [tb|x]; simpl in *; [|discriminate].
    rewrite He in *. simpl in *.
    destruct (Spec.serialize_all after) as [ta|x]; simpl in *; [|discriminate].
    destruct (oversized_text_own_chunk max_chars tb ta t
                (entry_text_truthy e t He) L) as [b [a Hs]].
    exists b, a. now rewrite Hs.
Qed.

Lemma split_prompt_chunking_witness :
  split_prompt [Examples.entry30; Examples.entry40] 50 =
    Ok ["Slide Title: Opens by region" +++ nl +++ nl;
        "Slide Title: Clicks" +++ nl +++ "EU, 10" +++ nl +++ "US, 12" +++ nl
          +++ "APAC" +++ nl +++ nl]
  /\ split_prompt [Examples.entry15; Examples.entry30] 50 =
       Ok [("Slide Title: " +++ nl +++ nl)
             +++ ("Slide Title: Opens by region" +++ nl +++ nl)]
  /\ Spec.split_texts ["0123456789"; "abcdefghij"] 50 =
       ["0123456789" +++ "abcdefghij"]
  /\ exists b a,
       split_prompt ([Examples.entry15] ++ Examples.entry40 :: [Examples.entry15]) 39 =
         Ok (b ++ ("Slide Title: Clicks" +++ nl +++ "EU, 10" +++ nl +++ "US, 12"
                     +++ nl +++ "APAC" +++ nl +++ nl) :: a).
Proof.
  destruct split_prompt_chunking as [_ [_ [H30 [H10 [Hfit Hbig]]]]].
  split; [|split; [|split]].
  - apply (H30 Examples.entry30 Examples.entry40); reflexivity.
  - apply (Hfit Examples.entry15 Examples.entry30); try reflexivity.
    vm_compute. discriminate.
  - apply (H10 "0123456789" "abcdefghij"); reflexivity.
  - eapply (Hbig [Examples.entry15] Examples.entry40 [Examples.entry15]);
      reflexivity.
Defined.

(** C10.  When the first entry's serialized text alone exceeds [max_chars],
    the first chunk returned by [split_prompt] is the empty string: the flush
    inside the loop appends the buffer while it is still empty. *)
Theorem split_prompt_leading_empty_chunk :
  forall (e : entry) (rest : list entry) (max_chars : Z) (t : string),
    entry_text_of e = Ok t ->
    Forall (fun x => text x <> None) rest ->
    (len t > max_chars)%Z ->
    exists cs, split_prompt (e :: rest) max_chars = Ok ("" :: cs).
Proof.
  intros e rest max_chars t He Hrest L.
  destruct (serialize_all_total rest Hrest) as [ts Hts].
  rewrite split_prompt_spec. simpl. rewrite He, Hts. simpl.
  destruct (first_oversized_empty_chunk max_chars t ts
              (entry_text_truthy e t He) L) as [cs Hcs].
  exists cs. now rewrite Hcs.
Qed.

Lemma split_prompt_leading_empty_chunk_witness :
  exists cs,
    split_prompt (Examples.entry30 :: [Examples.entry15]) 20 = Ok ("" :: cs).
Proof.
  apply (split_prompt_leading_empty_chunk
           Examples.entry30 [Examples.entry15] 20
           ("Slide Title: Opens by region" +++ nl +++ nl)).
  - reflexivity.
  - repeat constructor; discriminate.
  - reflexivity.
Defined.

(** ** Prompt construction, Variant B *)

Lemma openai_prompt_loop_raises (data : list entry) :
  Exists Spec.lacks_key data ->
  forall prompt, exists e, OpenAI.prompt_loop data prompt = Raise e.
Proof.
  induction 1 as [x l Hx | x l Hl IH]; intros prompt; simpl.
  - unfold Spec.lacks_key in Hx.
    destruct (title x) as [ti|]; simpl; [|eauto].
    destruct (content x) as [c|]; simpl; [|eauto].
    destruct (tables x) as [tb|]; simpl; [|eauto].
    destruct Hx as [Hx | [Hx | Hx]]; discriminate.
  - destruct (title x) as [ti|]; simpl; [|eauto].
    destruct (content x) as [c|]; simpl; [|eauto].
    destruct (tables x) as [tb|]; simpl; [|eauto].
    match goal with
    | |- context [Py.bind ?m _] => destruct m as [p'|e]; simpl; [apply IH | eauto]
    end.
Qed.

(** C2, as stated, fails.  On a record without the "tables" key the prompt
    builder of Variant B returns a value, [None], after logging the
    [KeyError]; it does not raise. *)
Lemma generate_prompt_missing_key_returns :
  Spec.lacks_key (mkEntry (Some "Q3 Report") (Some "Intro line") None None)
  /\ Eff.run (OpenAI.generate_prompt
                [mkEntry (Some "Q3 Report") (Some "Intro line") None None]) =
       (Ok None,
        [LogError (TextExn "Error generating prompt: " (KeyError "tables"))])
  /\ forall e,
       fst (Eff.run (OpenAI.generate_prompt
                       [mkEntry (Some "Q3 Report") (Some "Intro line") None None]))
       <> Raise e.
Proof.
  split; [right; right; reflexivity|].
  split; [reflexivity|]. intros e. discriminate.
Qed.

(** C2, amended.  On every input list containing a record that lacks one of
    the keys title, content and tables, [generate_prompt] over
    {title, content, tables} records catches the failure, logs it and returns
    the null-equivalent: no prompt is returned and no exception is raised. *)
Theorem generate_prompt_malformed_returns_None :
  forall (slide_data : list entry) (t : trace),
    Exists Spec.lacks_key slide_data ->
    exists e,
      OpenAI.generate_prompt slide_data t =
      (Ok None, t ++ [LogError (TextExn "Error generating prompt: " e)]).
Proof.
  intros slide_data t H.
  destruct (openai_prompt_loop_raises slide_data H OpenAI.preamble) as [e He].
  exists e. unfold OpenAI.generate_prompt, try_except, bindM, lift.
  rewrite He. reflexivity.
Qed.

Lemma generate_prompt_malformed_returns_None_witness :
  exists e,
    OpenAI.generate_prompt
      [mkEntry (Some "Q3 Report") (Some "") (Some "Q3 Report") (Some []);
       mkEntry None (Some "Intro line") None (Some [])] [] =
    (Ok None, [] ++ [LogError (TextExn "Error generating prompt: " e)]).
Proof.
  apply (generate_prompt_malformed_returns_None
           [mkEntry (Some "Q3 Report") (Some "") (Some "Q3 Report") (Some []);
            mkEntry None (Some "Intro line") None (Some [])] []).
  apply Exists_cons_tl. apply Exists_cons_hd. left. reflexivity.
Defined.

(** ** The summarization entry points *)

Lemma endswith_truthy (s suffix : string) :
  truthy_str suffix = true -> endswith s suffix = true -> truthy_str s = true.
Proof.
  unfold endswith. intros Hs H. apply andb_prop in H. destruct H as [H _].
  apply Nat.leb_le in H. apply truthy_str_length.
  apply truthy_str_length in Hs. lia.
Qed.

Lemma path_join2_truthy (path b : string) :
  truthy_str b = true -> truthy_str (path_join2 path b) = true.
Proof.
  intros Hb. unfold path_join2.
  destruct (startswith b "/"); [exact Hb|].
  destruct (negb (truthy_str path) || endswith path "/").
  - now apply truthy_str_append_r.
  - apply truthy_str_append_r. now apply truthy_str_append_r.
Qed.

Lemma first_pptx_truthy (directory report_id : string) (files : list string)
    (path : string) :
  first_pptx directory report_id files = Some path -> truthy_str path = true.
Proof.
  induction files as [|file files IH]; simpl; [discriminate|].
  destruct (endswith file ".pptx") eqn:E; [|exact IH].
  intros H. inversion H; subst; clear H.
  unfold path_join. simpl. apply path_join2_truthy.
  now apply (endswith_truthy file ".pptx").
Qed.

Lemma first_pptx_none (directory report_id : string) (files : list string) :
  Forall (fun file => endswith file ".pptx" = false) files ->
  first_pptx directory report_id files = None.
Proof.
  induction 1 as [|file files Hf H IH]; simpl; [reflexivity|].
  now rewrite Hf.
Qed.

(** C8.  When the directory of the report lists no file ending in ".pptx",
    or when listing it fails, both entry points return [None]: the result is
    a value, not a raised exception. *)
Theorem missing_pptx_returns_None :
  forall (W : World) (report_id : string) (t : trace),
    let directory := path_join (pandas_presentation_directory W) [report_id] in
    (exists e, listdir W directory = Raise e)
    \/ (exists files,
           listdir W directory = Ok files /\
           Forall (fun file => endswith file ".pptx" = false) files) ->
    fst (Bedrock.summarize_with_bedrock_titan W report_id t) = Ok None
    /\ fst (OpenAI.ppt_summarization W report_id t) = Ok None.
Proof.
  intros W report_id t directory H.
  unfold Bedrock.summarize_with_bedrock_titan, OpenAI.ppt_summarization.
  unfold try_except, bindM, call, emit, ret. fold directory.
  destruct H as [[e He] | [files [Hl Hf]]].
  - rewrite He. simpl. auto.
  - rewrite Hl. rewrite (first_pptx_none _ _ _ Hf). simpl. auto.
Qed.

Lemma missing_pptx_returns_None_witness :
  fst (Bedrock.summarize_with_bedrock_titan Examples.world_without_deck "r1" [])
    = Ok None
  /\ fst (OpenAI.ppt_summarization Examples.world_without_deck "r1" []) = Ok None.
Proof.
  apply (missing_pptx_returns_None Examples.world_without_deck "r1" []).
  right. exists ["notes.txt"; "deck.ppt"]. split; [reflexivity|].
  repeat constructor.
Defined.

(** C9.  When the structured extraction of the located presentation is
    empty, both entry points log the failure and return [None]; the events
    of the run are the directory listing, the opening of the file and the
    error log, so that no client is created and no text-generation call is
    made. *)
Theorem empty_extraction_short_circuits :
  forall (W : World) (report_id : string) (t : trace)
         (files : list string) (path : string) (p : Presentation),
    let directory := path_join (pandas_presentation_directory W) [report_id] in
    listdir W directory = Ok files ->
    first_pptx (pandas_presentation_directory W) report_id files = Some path ->
    pptx_Presentation W path = Ok p ->
    preprocess_ppt p = [] ->
    let events :=
      [ListDir directory; OpenPresentation path;
       LogError (Text "Failed to preprocess content from the presentation.")] in
    Bedrock.summarize_with_bedrock_titan W report_id t = (Ok None, t ++ events)
    /\ OpenAI.ppt_summarization W report_id t = (Ok None, t ++ events)
    /\ forallb (fun ev => negb (is_provider_event ev)) events = true
    /\ forallb (fun ev => negb (is_generation_call ev)) events = true.
Proof.
  intros W report_id t files path p directory Hl Hf Hp He events.
  pose proof (first_pptx_truthy _ _ _ _ Hf) as Ht.
  unfold Bedrock.summarize_with_bedrock_titan, OpenAI.ppt_summarization.
  unfold try_except, bindM, call, emit, ret. fold directory.
  rewrite Hl, Hf, Ht, Hp, He. simpl.
  rewrite <- !app_assoc. simpl. auto.
Qed.

Lemma empty_extraction_short_circuits_witness :
  Bedrock.summarize_with_bedrock_titan Examples.world_with_blank_deck "r1" [] =
    (Ok None,
     [] ++ [ListDir "/data/presentations/r1";
            OpenPresentation "/data/presentations/r1/deck.pptx";
            LogError (Text "Failed to preprocess content from the presentation.")])
  /\ OpenAI.ppt_summarization Examples.world_with_blank_deck "r1" [] =
       (Ok None,
        [] ++ [ListDir "/data/presentations/r1";
               OpenPresentation "/data/presentations/r1/deck.pptx";
               LogError (Text "Failed to preprocess content from the presentation.")]).
Proof.
  destruct (empty_extraction_short_circuits
              Examples.world_with_blank_deck "r1" [] ["deck.pptx"]
              "/data/presentations/r1/deck.pptx"
              (mkPresentation [mkSlide [Examples.picture]])
              eq_refl eq_refl eq_refl eq_refl) as [H1 [H2 _]].
  split; [exact H1 | exact H2].
Defined.

(** C1, as stated, fails.  In the world where the directory of "r1" holds a
    deck, the extraction is not empty, the prompt is built and the chat
    endpoint answers with one choice, Variant B returns [None] when the
    content of that choice is the empty string. *)
Lemma empty_completion_returns_None :
  let W := Examples.sample_world (Some "") in
  listdir W "/data/presentations/r1" = Ok ["notes.txt"; "deck.pptx"]
  /\ pptx_Presentation W "/data/presentations/r1/deck.pptx"
     = Ok Examples.deck_with_gap
  /\ preprocess_ppt Examples.deck_with_gap <> []
  /\ (exists prompt,
        fst (Eff.run (OpenAI.generate_prompt
                        (preprocess_ppt Examples.deck_with_gap)))
          = Ok (Some prompt)
        /\ fst (Eff.run (OpenAI.summarize_with_azure_openai W prompt))
           = Ok (Some ""))
  /\ fst (Eff.run (OpenAI.ppt_summarization W "r1")) = Ok None.
Proof.
  repeat split; try reflexivity.
  - discriminate.
  - eexists. split; reflexivity.
Qed.

(** C1, amended.  For every report id for which the file lookup, the
    extraction (not empty), the prompt construction and the provider call
    succeed, and the single completion's message content is a non-empty
    string, [ppt_summarization] (Variant B) returns that content.  When the
    content is the empty string, it logs "Failed to generate summary." as an
    error, after the request to the chat endpoint, and returns [None]. *)
Theorem ppt_summarization_returns_completion :
  forall (W : World) (report_id : string) (t : trace)
         (files : list string) (path : string) (p : Presentation)
         (prompt : string) (response : chat_response)
         (choice : chat_choice) (others : list chat_choice) (s : string),
    listdir W (path_join (pandas_presentation_directory W) [report_id])
      = Ok files ->
    first_pptx (pandas_presentation_directory W) report_id files = Some path ->
    pptx_Presentation W path = Ok p ->
    preprocess_ppt p <> [] ->
    OpenAI.prompt_loop (preprocess_ppt p) OpenAI.preamble = Ok prompt ->
    ChatCompletion_create W (AZURE_OPENAI_DEPLOYMENT W)
      [("system", "You are an expert data analyst and report summarizer.");
       ("user", prompt +++ OpenAI.closing)] (7 # 10)%Q = Ok response ->
    choices response = choice :: others ->
    message_content choice = Some s ->
    let before_answer :=
      [ListDir (path_join (pandas_presentation_directory W) [report_id]);
       OpenPresentation path;
       LogInfo (Text (nl +++ "--- Extracted Content ---" +++ nl));
       LogInfo (SlideData (preprocess_ppt p));
       LogInfo (Text ("Generated Prompt:" +++ nl
                        +++ substring 0 100 (prompt +++ OpenAI.closing)
                        +++ "..." +++ nl));
       ChatCompletionCreate (AZURE_OPENAI_DEPLOYMENT W)
         [("system", "You are an expert data analyst and report summarizer.");
          ("user", prompt +++ OpenAI.closing)] (7 # 10)%Q] in
    (s <> "" ->
     fst (OpenAI.ppt_summarization W report_id t) = Ok (Some s)
     /\ snd (OpenAI.ppt_summarization W report_id t) =
        t ++ before_answer
          ++ [LogInfo (Text ("Generated Summary:" +++ nl +++ " " +++ s))])
    /\ (s = "" ->
        OpenAI.ppt_summarization W report_id t =
        (Ok None,
         t ++ before_answer ++ [LogError (Text "Failed to generate summary.")])).
Proof.
  intros W report_id t files path p prompt response choice others s
         Hl Hf Hp Hd Hprompt Hc Hch Hm before_answer.
  pose proof (first_pptx_truthy _ _ _ _ Hf) as Ht.
  assert (Hne : truthy_list (preprocess_ppt p) = true)
    by (destruct (preprocess_ppt p); [congruence | reflexivity]).
  unfold OpenAI.ppt_summarization, OpenAI.generate_prompt,
    OpenAI.summarize_with_azure_openai.
  unfold try_except, bindM, call, emit, ret, lift.
  rewrite Hl, Hf, Ht, Hp, Hne. cbn -[String.append substring].
  rewrite Hprompt. cbn -[String.append substring].
  rewrite Hc. cbn -[String.append substring].
  rewrite Hch, Hm. cbn -[String.append substring].
  subst before_answer. split.
  - intros Hs.
    assert (Hts : truthy_str s = true)
      by (destruct s; [congruence | reflexivity]).
    rewrite Hts. cbn -[String.append substring].
    split; [reflexivity|]. rewrite <- !app_assoc. reflexivity.
  - intros ->. cbn -[String.append substring].
    rewrite <- !app_assoc. reflexivity.
Qed.

Lemma ppt_summarization_returns_completion_witness :
  fst (OpenAI.ppt_summarization
         (Examples.sample_world (Some "Two slides: A and B.")) "r1" [])
    = Ok (Some "Two slides: A and B.")
  /\ fst (OpenAI.ppt_summarization (Examples.sample_world (Some "")) "r1" [])
     = Ok None
  /\ In (LogError (Text "Failed to generate summary."))
        (snd (OpenAI.ppt_summarization (Examples.sample_world (Some "")) "r1" [])).
Proof.
  destruct (ppt_summarization_returns_completion
              (Examples.sample_world (Some "Two slides: A and B.")) "r1" []
              ["notes.txt"; "deck.pptx"] "/data/presentations/r1/deck.pptx"
              Examples.deck_with_gap _ _ _ _ "Two slides: A and B."
              eq_refl eq_refl eq_refl ltac:(discriminate) eq_refl eq_refl
              eq_refl eq_refl) as [Hfull _].
  destruct (ppt_summarization_returns_completion
              (Examples.sample_world (Some "")) "r1" []
              ["notes.txt"; "deck.pptx"] "/data/presentations/r1/deck.pptx"
              Examples.deck_with_gap _ _ _ _ ""
              eq_refl eq_refl eq_refl ltac:(discriminate) eq_refl eq_refl
              eq_refl eq_refl) as [_ Hempty].
  split; [exact (proj1 (Hfull ltac:(discriminate)))|].
  rewrite (Hempty eq_refl). split; [reflexivity|].
  simpl. do 6 right. left. reflexivity.
Defined.

(** ** Variant A on the records of the extractor *)

Lemma preprocess_records_text (p : Presentation) (e : entry) :
  In e (preprocess_ppt p) -> text e = None.
Proof.
  rewrite preprocess_ppt_spec. intros H. apply in_flat_map in H.
  destruct H as [s [_ H]]. unfold Spec.record_of in H.
  destruct (Spec.text_items (shapes s)); [destruct (Spec.raw_tables (shapes s))|];
    simpl in H; try contradiction;
    (destruct H as [H|H]; [subst; reflexivity | contradiction]).
Qed.

(** The prompt builder of Variant A reads the key "text", which no record of
    [preprocess_ppt] has. *)
Lemma bedrock_prompt_rejects_records (p : Presentation) :
  preprocess_ppt p <> [] ->
  Bedrock.generate_prompt (preprocess_ppt p) =
  Raise (RuntimeError "Error generating prompt: " (KeyError "text")).
Proof.
  intros H. pose proof (preprocess_records_text p) as Ht.
  destruct (preprocess_ppt p) as [|e l]; [congruence|].
  unfold Bedrock.generate_prompt. simpl.
  rewrite (Ht e (or_introl eq_refl)). reflexivity.
Qed.

(** X8.  Whatever the world answers, Variant A returns [None]: every [return]
    of lines 130-163 returns [None] and the successful path falls off the end
    of the function. *)
Lemma bedrock_entry_point_returns_None (W : World) (report_id : string)
    (t : trace) :
  fst (Bedrock.summarize_with_bedrock_titan W report_id t) = Ok None.
Proof.
  unfold Bedrock.summarize_with_bedrock_titan.
  unfold try_except at 1. unfold bindM, call, emit, ret, lift.
  destruct (listdir W _) as [files|e]; [|reflexivity].
  destruct (first_pptx _ _ files) as [path|]; [|reflexivity].
  destruct (truthy_str path); [|reflexivity]. simpl.
  destruct (pptx_Presentation W path) as [p|e]; [|reflexivity].
  destruct (truthy_list (preprocess_ppt p)); [|reflexivity]. simpl.
  destruct (Bedrock.initialize_bedrock_client W "us-west-2" _)
    as [[client|e] t1]; [|reflexivity].
  destruct (Bedrock.generate_prompt (preprocess_ppt p)) as [prompt|e];
    [|reflexivity].
  destruct (Bedrock.query_bedrock_model W client _ prompt 4096 t1)
    as [[response|e] t2]; reflexivity.
Qed.

(** X9.  Variant A never reaches [invoke_model]: on a non-empty extraction
    its prompt builder raises before the query, and the handler of the entry
    point ends the run. *)
Lemma bedrock_never_invokes_model (W : World) (report_id : string) :
  forallb (fun ev => negb (is_generation_call ev))
          (snd (Eff.run (Bedrock.summarize_with_bedrock_titan W report_id)))
  = true.
Proof.
  unfold Eff.run, Bedrock.summarize_with_bedrock_titan.
  unfold try_except, bindM, call, emit, ret, lift. simpl.
  destruct (listdir W _) as [files|e]; [|reflexivity].
  destruct (first_pptx _ _ files) as [path|]; [|reflexivity].
  destruct (truthy_str path); [|reflexivity]. simpl.
  destruct (pptx_Presentation W path) as [p|e]; [|reflexivity].
  destruct (truthy_list (preprocess_ppt p)) eqn:E; [|reflexivity]. simpl.
  rewrite bedrock_prompt_rejects_records
    by (destruct (preprocess_ppt p); [discriminate | congruence]).
  unfold Bedrock.initialize_bedrock_client, try_except, call, raise.
  destruct (session_client W _ _); reflexivity.
Qed.

(** No exception leaves Variant B either. *)
Lemma ppt_summarization_total (W : World) (report_id : string) (t : trace) :
  exists v, fst (OpenAI.ppt_summarization W report_id t) = Ok v.
Proof.
  unfold OpenAI.ppt_summarization, try_except.
  match goal with
  | |- context [match ?m t with _ => _ end] => destruct (m t) as [[v|e] t']
  end; simpl; eauto.
Qed.

(** * Further properties of the code *)

(** ** Chunks of [split_prompt] *)

Lemma concat_empty_cons (x : string) (l : list string) :
  String.concat "" (x :: l) = x +++ String.concat "" l.
Proof.
  destruct l as [|y l]; simpl; [now rewrite append_empty_r | reflexivity].
Qed.

Lemma concat_empty_app (l1 l2 : list string) :
  String.concat "" (l1 ++ l2) = String.concat "" l1 +++ String.concat "" l2.
Proof.
  induction l1 as [|x l1 IH]; [reflexivity|].
  change ((x :: l1) ++ l2) with (x :: (l1 ++ l2)).
  now rewrite !concat_empty_cons, IH, append_assoc.
Qed.

Lemma accumulate_concat (max_chars : Z) (texts : list string) :
  forall chunks buffer chunks' buffer',
    fold_left (Spec.step max_chars) texts (chunks, buffer) = (chunks', buffer') ->
    String.concat "" chunks' +++ buffer' =
    (String.concat "" chunks +++ buffer) +++ String.concat "" texts.
Proof.
  induction texts as [|t texts IH]; intros chunks buffer chunks' buffer' H.
  - simpl in H. inversion H; subst. simpl. now rewrite append_empty_r.
  - simpl in H. rewrite concat_empty_cons.
    destruct (len buffer + len t >? max_chars)%Z; apply IH in H; rewrite H.
    + rewrite concat_empty_app. simpl. now rewrite !append_assoc.
    + now rewrite !append_assoc.
Qed.

Lemma flush_concat (chunks : list string) (buffer : string) :
  String.concat "" (Spec.flush (chunks, buffer)) =
  String.concat "" chunks +++ buffer.
Proof.
  unfold Spec.flush. destruct buffer as [|c b]; simpl.
  - now rewrite append_empty_r.
  - now rewrite concat_empty_app.
Qed.

Lemma serialize_all_length (data : list entry) :
  forall texts,
    Spec.serialize_all data = Ok texts -> length texts = length data.
Proof.
  induction data as [|e data IH]; intros texts H; simpl in H.
  - inversion H. reflexivity.
  - destruct (entry_text_of e) as [t|x]; simpl in H; [|discriminate].
    destruct (Spec.serialize_all data) as [ts|x]; simpl in H; [|discriminate].
    inversion H; subst. simpl. now rewrite (IH ts eq_refl).
Qed.

(** X1.  [split_prompt] loses and reorders nothing: the chunks it returns,
    put end to end, are the serialized texts of the entries put end to
    end. *)
Theorem split_prompt_preserves_text :
  forall (data : list entry) (max_chars : Z) (texts chunks : list string),
    Spec.serialize_all data = Ok texts ->
    split_prompt data max_chars = Ok chunks ->
    String.concat "" chunks = String.concat "" texts.
Proof.
  intros data max_chars texts chunks Hs H.
  rewrite split_prompt_spec, Hs in H. simpl in H. inversion H; subst; clear H.
  unfold Spec.split_texts, Spec.accumulate.
  destruct (fold_left (Spec.step max_chars) texts ([], "")) as [c b] eqn:E.
  rewrite flush_concat. apply accumulate_concat in E. exact E.
Qed.

Lemma split_prompt_preserves_text_witness :
  String.concat ""
    [("Slide Title: " +++ nl +++ nl)
       +++ ("Slide Title: Opens by region" +++ nl +++ nl)] =
  String.concat ""
    ["Slide Title: " +++ nl +++ nl;
     "Slide Title: Opens by region" +++ nl +++ nl].
Proof.
  apply (split_prompt_preserves_text
           [Examples.entry15; Examples.entry30] 50); reflexivity.
Defined.

Lemma accumulate_bound (max_chars : Z) (all : list string) (texts : list string) :
  (forall t, In t texts -> In t all) ->
  forall chunks buffer chunks' buffer',
    let P := fun c => c = "" \/ (len c <= max_chars)%Z \/ In c all in
    Forall P chunks -> P buffer ->
    fold_left (Spec.step max_chars) texts (chunks, buffer) = (chunks', buffer') ->
    Forall P chunks' /\ P buffer' /\
    length chunks' <= length chunks + length texts.
Proof.
  induction texts as [|t texts IH]; intros Hsub chunks buffer chunks' buffer' P
    Hc Hb H.
  - simpl in H. inversion H; subst. simpl. repeat split; auto. lia.
  - simpl in H.
    assert (Hsub' : forall x, In x texts -> In x all)
      by (intros x Hx; apply Hsub; now right).
    destruct (len buffer + len t >? max_chars)%Z eqn:E.
    + apply (IH Hsub') in H.
      * destruct H as [H1 [H2 H3]]. repeat split; auto.
        rewrite length_app in H3. simpl in *. lia.
      * apply Forall_app. split; [exact Hc | constructor; [exact Hb | constructor]].
      * right. right. apply Hsub. now left.
    + apply (IH Hsub') in H.
      * destruct H as [H1 [H2 H3]]. repeat split; auto. simpl. lia.
      * exact Hc.
      * right. left. rewrite len_append.
        rewrite Z.gtb_ltb in E. apply Z.ltb_ge in E. exact E.
Qed.

(** X2.  Every chunk returned by [split_prompt] is empty, or at most
    [max_chars] long, or the whole serialized text of one entry (an entry too
    long for the limit); and there are at most as many chunks as entries,
    plus one. *)
Theorem split_prompt_chunk_bound :
  forall (data : list entry) (max_chars : Z) (texts chunks : list string),
    Spec.serialize_all data = Ok texts ->
    split_prompt data max_chars = Ok chunks ->
    Forall (fun c => c = "" \/ (len c <= max_chars)%Z \/ In c texts) chunks
    /\ length chunks <= length data + 1.
Proof.
  intros data max_chars texts chunks Hs H.
  rewrite split_prompt_spec, Hs in H. simpl in H. inversion H; subst; clear H.
  unfold Spec.split_texts, Spec.accumulate.
  destruct (fold_left (Spec.step max_chars) texts ([], "")) as [c b] eqn:E.
  apply (accumulate_bound max_chars texts texts (fun t Ht => Ht)) in E;
    [|constructor|now left].
  destruct E as [Hc [Hb Hl]]. rewrite (serialize_all_length data texts Hs) in Hl.
  unfold Spec.flush. destruct (truthy_str b); split; auto.
  - apply Forall_app. split; [exact Hc | constructor; [exact Hb | constructor]].
  - rewrite length_app. simpl in *. lia.
  - simpl in Hl. lia.
Qed.

Lemma split_prompt_chunk_bound_witness :
  Forall (fun c => c = "" \/ (len c <= 20)%Z
                   \/ In c ["Slide Title: Opens by region" +++ nl +++ nl;
                            "Slide Title: " +++ nl +++ nl])
         [""; "Slide Title: Opens by region" +++ nl +++ nl;
          "Slide Title: " +++ nl +++ nl]
  /\ length [""; "Slide Title: Opens by region" +++ nl +++ nl;
             "Slide Title: " +++ nl +++ nl]
     <= length [Examples.entry30; Examples.entry15] + 1.
Proof.
  apply (split_prompt_chunk_bound
           [Examples.entry30; Examples.entry15] 20); reflexivity.
Defined.

Lemma serialize_all_missing_text (data : list entry) :
  Exists (fun e => text e = None) data ->
  Spec.serialize_all data = Raise (KeyError "text").
Proof.
  induction data as [|e data IH]; intros H; [inversion H|].
  simpl. unfold entry_text_of at 1.
  destruct (text e) as [ti|] eqn:Et; simpl; [|reflexivity].
  rewrite IH; [reflexivity|].
  inversion H as [? ? Hh | ? ? Ht]; subst; [congruence | exact Ht].
Qed.

(** X3.  [split_prompt] needs the key "text" and nothing else: it returns
    chunks when every entry has that key, with or without "tables", and it
    raises [KeyError] for "text" as soon as one entry lacks it. *)
Theorem split_prompt_requires_text_key :
  forall (data : list entry) (max_chars : Z),
    (Forall (fun e => text e <> None) data ->
     exists chunks, split_prompt data max_chars = Ok chunks)
    /\ (Exists (fun e => text e = None) data ->
        split_prompt data max_chars = Raise (KeyError "text")).
Proof.
  intros data max_chars. split; intros H.
  - destruct (serialize_all_total data H) as [ts Hts].
    rewrite split_prompt_spec, Hts. simpl. eauto.
  - rewrite split_prompt_spec, (serialize_all_missing_text data H). reflexivity.
Qed.

Lemma split_prompt_requires_text_key_witness :
  (exists chunks,
      split_prompt [Examples.entry30; Examples.entry15] 3000 = Ok chunks)
  /\ split_prompt
       [Examples.entry30;
        mkEntry (Some "Q3 Report") (Some "") None (Some [])] 3000
     = Raise (KeyError "text").
Proof.
  split.
  - apply (split_prompt_requires_text_key
             [Examples.entry30; Examples.entry15] 3000).
    repeat constructor; discriminate.
  - apply (split_prompt_requires_text_key
             [Examples.entry30;
              mkEntry (Some "Q3 Report") (Some "") None (Some [])] 3000).
    apply Exists_cons_tl. apply Exists_cons_hd. reflexivity.
Defined.

(** ** The prompt builders *)

Lemma tables_block_ok (tb : list (list (list string))) :
  Forall (fun t => t <> []) tb ->
  forall prompt, exists r, tables_block tb prompt = Ok r.
Proof.
  induction 1 as [|t tb Ht H IH]; intros prompt; simpl; [eauto|].
  destruct t as [|header data_rows]; [congruence | apply IH].
Qed.

Lemma tables_block_inv (tb : list (list (list string))) :
  forall prompt r,
    tables_block tb prompt = Ok r -> Forall (fun t => t <> []) tb.
Proof.
  induction tb as [|t tb IH]; intros prompt r H; [constructor|].
  simpl in H. destruct t as [|header data_rows]; [discriminate|].
  constructor; [discriminate | eapply IH; eauto].
Qed.

Lemma tables_block_raises (tb : list (list (list string))) :
  forall prompt e, tables_block tb prompt = Raise e -> e = IndexError.
Proof.
  induction tb as [|t tb IH]; intros prompt e H; simpl in H; [discriminate|].
  destruct t as [|header data_rows]; [congruence | eapply IH; eauto].
Qed.

Lemma openai_prompt_loop_ok (data : list entry) :
  Forall Spec.well_formed data ->
  forall prompt, exists r, OpenAI.prompt_loop data prompt = Ok r.
Proof.
  induction 1 as [|e data He H IH]; intros prompt; simpl; [eauto|].
  destruct He as [ti [c [tb [-> [-> [-> Htb]]]]]]. simpl.
  destruct (truthy_list tb); simpl; [|apply IH].
  match goal with
  | |- context [tables_block tb ?q] =>
      destruct (tables_block_ok tb Htb q) as [r Hr]; rewrite Hr
  end.
  simpl. apply IH.
Qed.

Lemma openai_prompt_loop_inv (data : list entry) :
  forall prompt r,
    OpenAI.prompt_loop data prompt = Ok r -> Forall Spec.well_formed data.
Proof.
  induction data as [|e data IH]; intros prompt r H; [constructor|].
  simpl in H.
  destruct (title e) as [ti|] eqn:Et; simpl in H; [|discriminate].
  destruct (content e) as [c|] eqn:Ec; simpl in H; [|discriminate].
  destruct (tables e) as [tb|] eqn:Eb; simpl in H; [|discriminate].
  destruct (truthy_list tb) eqn:Etb.
  - match type of H with
    | Py.bind ?m _ = _ => destruct m as [p'|x] eqn:Em; simpl in H; [|discriminate]
    end.
    constructor; [|eapply IH; eauto].
    exists ti, c, tb. repeat split; auto. eapply tables_block_inv; eauto.
  - simpl in H. constructor; [|eapply IH; eauto].
    exists ti, c, tb. repeat split; auto.
    destruct tb; [constructor | discriminate].
Qed.

(** X4.  [generate_prompt] of Variant B returns a prompt, and logs nothing,
    exactly when every record has the keys title, content and tables and
    every table has at least its header row.  Otherwise it returns [None],
    after logging the exception as an error; it never raises. *)
Theorem openai_prompt_built_iff_well_formed :
  forall (slide_data : list entry) (t : trace),
    ((exists prompt,
         OpenAI.generate_prompt slide_data t = (Ok (Some prompt), t))
     <-> Forall Spec.well_formed slide_data)
    /\ (~ Forall Spec.well_formed slide_data ->
        exists e,
          OpenAI.generate_prompt slide_data t =
          (Ok None, t ++ [LogError (TextExn "Error generating prompt: " e)])).
Proof.
  intros slide_data t.
  unfold OpenAI.generate_prompt, try_except, bindM, lift, ret, emit, call.
  split; [split|].
  - intros [prompt H].
    destruct (OpenAI.prompt_loop slide_data OpenAI.preamble) as [r|e] eqn:E.
    + eapply openai_prompt_loop_inv; eauto.
    + simpl in H. discriminate.
  - intros H.
    destruct (openai_prompt_loop_ok slide_data H OpenAI.preamble) as [r Hr].
    rewrite Hr. eauto.
  - intros H.
    destruct (OpenAI.prompt_loop slide_data OpenAI.preamble) as [r|e] eqn:E.
    + exfalso. apply H. eapply openai_prompt_loop_inv; eauto.
    + exists e. reflexivity.
Qed.

Lemma openai_prompt_built_iff_well_formed_witness :
  (exists prompt,
      OpenAI.generate_prompt
        [mkEntry (Some "Q3 Report") (Some "Intro line") None
                 (Some [[["Region"; "Opens"]; ["EU"; "10"]]])] [] =
      (Ok (Some prompt), []))
  /\ (exists e,
        OpenAI.generate_prompt
          [mkEntry (Some "Q3 Report") (Some "Intro line") None (Some [[]])] [] =
        (Ok None, [] ++ [LogError (TextExn "Error generating prompt: " e)])).
Proof.
  split.
  - apply (openai_prompt_built_iff_well_formed
             [mkEntry (Some "Q3 Report") (Some "Intro line") None
                      (Some [[["Region"; "Opens"]; ["EU"; "10"]]])] []).
    constructor; [|constructor].
    exists "Q3 Report", "Intro line", [[["Region"; "Opens"]; ["EU"; "10"]]].
    repeat split. constructor; [discriminate | constructor].
  - apply (openai_prompt_built_iff_well_formed
             [mkEntry (Some "Q3 Report") (Some "Intro line") None (Some [[]])] []).
    intros H. inversion H as [|? ? [ti [c [tb [_ [_ [Htb Hf]]]]]] _]; subst.
    simpl in Htb. inversion Htb; subst.
    inversion Hf as [|? ? Hne _]; subst. apply Hne. reflexivity.
Defined.

Lemma bedrock_prompt_loop_ok (data : list entry) :
  Forall Spec.bedrock_well_formed data ->
  forall prompt, exists r, Bedrock.prompt_loop data prompt = Ok r.
Proof.
  induction 1 as [|e data He H IH]; intros prompt; simpl; [eauto|].
  destruct He as [Ht Htb].
  destruct (text e) as [ti|]; [|congruence]. simpl.
  destruct (tables e) as [[|tb0 tb]|] eqn:Eb; try (simpl; apply IH).
  cbn -[tables_block String.append].
  match goal with
  | |- context [tables_block (tb0 :: tb) ?q] =>
      destruct (tables_block_ok (tb0 :: tb) (Htb _ eq_refl) q) as [r Hr];
      rewrite Hr
  end.
  simpl. apply IH.
Qed.

Lemma bedrock_prompt_loop_inv (data : list entry) :
  forall prompt r,
    Bedrock.prompt_loop data prompt = Ok r ->
    Forall Spec.bedrock_well_formed data.
Proof.
  induction data as [|e data IH]; intros prompt r H; [constructor|].
  simpl in H.
  destruct (text e) as [ti|] eqn:Et; simpl in H; [|discriminate].
  destruct (tables e) as [[|tb0 tb]|] eqn:Eb; simpl in H.
  - constructor; [|eapply IH; eauto].
    split; [congruence|]. intros tb' Ht'. rewrite Eb in Ht'.
    inversion Ht'. constructor.
  - match type of H with
    | Py.bind ?m _ = _ => destruct m as [p'|x] eqn:Em; simpl in H; [|discriminate]
    end.
    constructor; [|eapply IH; eauto].
    split; [congruence|]. intros tb' Ht'. rewrite Eb in Ht'.
    inversion Ht'; subst. eapply tables_block_inv; eauto.
  - constructor; [|eapply IH; eauto].
    split; [congruence|]. intros tb' Ht'. congruence.
Qed.

Lemma bedrock_prompt_loop_raises (data : list entry) :
  forall prompt e,
    Bedrock.prompt_loop data prompt = Raise e ->
    e = KeyError "text" \/ e = IndexError.
Proof.
  induction data as [|x data IH]; intros prompt e H; [discriminate|].
  cbn -[tables_block String.append] in H.
  destruct (text x) as [ti|]; cbn -[tables_block String.append] in H;
    [|left; congruence].
  destruct (tables x) as [[|tb0 tb]|]; cbn -[tables_block String.append] in H;
    try (eapply IH; eassumption).
  match type of H with
  | Py.bind ?m _ = _ =>
      destruct m as [p'|y] eqn:Em; cbn -[tables_block String.append] in H
  end.
  - eapply IH; eassumption.
  - right. inversion H; subst. exact (tables_block_raises _ _ _ Em).
Qed.

(** X5.  [generate_prompt] of Variant A returns a prompt exactly when every
    entry has the key "text" and every table present has at least its header
    row.  Otherwise it raises [RuntimeError], caused by the [KeyError] of
    "text" or by the [IndexError] of an empty table. *)
Theorem bedrock_prompt_built_iff_well_formed :
  forall (data : list entry),
    ((exists prompt, Bedrock.generate_prompt data = Ok prompt)
     <-> Forall Spec.bedrock_well_formed data)
    /\ (forall e,
          Bedrock.generate_prompt data = Raise e ->
          e = RuntimeError "Error generating prompt: " (KeyError "text")
          \/ e = RuntimeError "Error generating prompt: " IndexError).
Proof.
  intros data. unfold Bedrock.generate_prompt. split; [split|].
  - intros [prompt H].
    destruct (Bedrock.prompt_loop data Bedrock.preamble) as [r|e] eqn:E;
      [|discriminate].
    eapply bedrock_prompt_loop_inv; eauto.
  - intros H.
    destruct (bedrock_prompt_loop_ok data H Bedrock.preamble) as [r Hr].
    rewrite Hr. eauto.
  - intros e H.
    destruct (Bedrock.prompt_loop data Bedrock.preamble) as [r|x] eqn:E;
      [discriminate|].
    inversion H; subst.
    destruct (bedrock_prompt_loop_raises data _ _ E) as [-> | ->]; auto.
Qed.

Lemma bedrock_prompt_built_iff_well_formed_witness :
  (exists prompt,
      Bedrock.generate_prompt [Examples.entry40; Examples.entry30] = Ok prompt)
  /\ (RuntimeError "Error generating prompt: " IndexError
        = RuntimeError "Error generating prompt: " (KeyError "text")
      \/ RuntimeError "Error generating prompt: " IndexError
         = RuntimeError "Error generating prompt: " IndexError).
Proof.
  split.
  - apply (bedrock_prompt_built_iff_well_formed
             [Examples.entry40; Examples.entry30]).
    repeat constructor; try discriminate;
      intros tb H; inversion H; repeat constructor; discriminate.
  - apply (bedrock_prompt_built_iff_well_formed
             [mkEntry None None (Some "Clicks") (Some [[["EU"]]; []])]).
    reflexivity.
Defined.

Lemma raw_tables_nonempty (shs : list Shape) :
  Forall (fun t => t <> []) (Spec.raw_tables shs) <->
  (forall sh, In sh shs -> has_text_frame sh = false -> has_table sh = true ->
              rows (table sh) <> []).
Proof.
  unfold Spec.raw_tables. rewrite Forall_map, Forall_forall. split.
  - intros H sh Hin Ht Hb Hr. apply (H sh).
    + apply filter_In. split; [exact Hin|]. now rewrite Ht, Hb.
    + unfold Spec.raw_table. now rewrite Hr.
  - intros H sh Hin Hr. apply filter_In in Hin. destruct Hin as [Hin Hf].
    apply andb_prop in Hf. destruct Hf as [Ht Hb].
    apply negb_true_iff in Ht. apply (H sh Hin Ht Hb).
    unfold Spec.raw_table in Hr. now apply map_eq_nil in Hr.
Qed.

Lemma record_of_well_formed (s : Slide) :
  Forall Spec.well_formed (Spec.record_of s) <->
  Forall (fun t => t <> []) (Spec.raw_tables (shapes s)).
Proof.
  unfold Spec.record_of.
  destruct (Spec.text_items (shapes s)) as [|i items];
    [destruct (Spec.raw_tables (shapes s)) as [|tb tbls]|].
  - split; constructor.
  - split.
    + intros H. inversion H as [|? ? [ti [c [tb' [_ [_ [Ht Hf]]]]]] _]; subst.
      simpl in Ht. now inversion Ht; subst.
    + intros H. constructor; [|constructor]. do 3 eexists. simpl. eauto.
  - split.
    + intros H. inversion H as [|? ? [ti [c [tb' [_ [_ [Ht Hf]]]]]] _]; subst.
      simpl in Ht. now inversion Ht; subst.
    + intros H. constructor; [|constructor]. do 3 eexists. simpl. eauto.
Qed.

(** X6.  On the records of [preprocess_ppt], the prompt builder of Variant B
    returns a prompt exactly when every table shape that the extractor walks
    as a table has at least one row: a table shape without any row becomes an
    empty table in its record, whose header the builder cannot read. *)
Theorem openai_prompt_on_records :
  forall (p : Presentation) (t : trace),
    (exists prompt,
        OpenAI.generate_prompt (preprocess_ppt p) t = (Ok (Some prompt), t))
    <-> (forall s sh,
            In s (slides p) -> In sh (shapes s) ->
            has_text_frame sh = false -> has_table sh = true ->
            rows (table sh) <> []).
Proof.
  intros p t.
  assert (Hwf : Forall Spec.well_formed (preprocess_ppt p) <->
                (forall s sh, In s (slides p) -> In sh (shapes s) ->
                              has_text_frame sh = false -> has_table sh = true ->
                              rows (table sh) <> [])).
  { rewrite preprocess_ppt_spec, Forall_flat_map, Forall_forall. split.
    - intros H s sh Hs. revert sh.
      apply raw_tables_nonempty, record_of_well_formed.
      exact (H s Hs).
    - intros H s Hs. apply record_of_well_formed, raw_tables_nonempty.
      intros sh. exact (H s sh Hs). }
  rewrite <- Hwf.
  unfold OpenAI.generate_prompt, try_except, bindM, lift, ret. split.
  - intros [prompt H].
    destruct (OpenAI.prompt_loop (preprocess_ppt p) OpenAI.preamble)
      as [r|e] eqn:E.
    + eapply openai_prompt_loop_inv; eauto.
    + simpl in H. discriminate.
  - intros H.
    destruct (openai_prompt_loop_ok _ H OpenAI.preamble) as [r Hr].
    rewrite Hr. eauto.
Qed.

Lemma openai_prompt_on_records_witness :
  exists prompt,
    OpenAI.generate_prompt
      (preprocess_ppt
         (mkPresentation
            [mkSlide [Examples.text_box "Q3"; Examples.opens_table]])) [] =
    (Ok (Some prompt), []).
Proof.
  apply (openai_prompt_on_records
           (mkPresentation
              [mkSlide [Examples.text_box "Q3"; Examples.opens_table]]) []).
  intros s sh [<-|[]] [<-|[<-|[]]] Ht Hb; discriminate.
Defined.

Lemma tables_block_prefix (tb : list (list (list string))) :
  forall prompt,
    tables_block tb prompt = (r <- tables_block tb "" ;; Ok (prompt +++ r)).
Proof.
  induction tb as [|t tb IH]; intros prompt.
  - simpl. now rewrite append_empty_r.
  - destruct t as [|header data_rows]; [reflexivity|].
    cbn -[String.append]. rewrite IH. rewrite (IH ("" +++ _)).
    destruct (tables_block tb "") as [r|e]; cbn -[String.append]; [|reflexivity].
    f_equal. change ("" +++ ?x) with x. now rewrite !append_assoc.
Qed.

Lemma openai_prompt_loop_prefix (data : list entry) :
  forall prompt,
    OpenAI.prompt_loop data prompt =
    (r <- OpenAI.prompt_loop data "" ;; Ok (prompt +++ r)).
Proof.
  induction data as [|e data IH]; intros prompt.
  - simpl. now rewrite append_empty_r.
  - cbn -[String.append tables_block].
    destruct (title e) as [ti|]; cbn -[String.append tables_block];
      [|reflexivity].
    destruct (content e) as [c|]; cbn -[String.append tables_block];
      [|reflexivity].
    destruct (tables e) as [tb|]; cbn -[String.append tables_block];
      [|reflexivity].
    destruct (truthy_list tb); cbn -[String.append tables_block].
    + rewrite tables_block_prefix.
      rewrite (tables_block_prefix tb ((if truthy_str c then _ else _) +++ _)).
      destruct (tables_block tb "") as [r|x]; cbn -[String.append];
        [|reflexivity].
      rewrite IH. rewrite (IH ((_ +++ r) +++ nl)).
      destruct (OpenAI.prompt_loop data "") as [r'|x]; cbn -[String.append];
        [|reflexivity].
      f_equal. destruct (truthy_str c); now rewrite !append_assoc.
    + rewrite IH. rewrite (IH ((if truthy_str c then _ else _) +++ nl)).
      destruct (OpenAI.prompt_loop data "") as [r'|x]; cbn -[String.append];
        [|reflexivity].
      f_equal. destruct (truthy_str c); now rewrite !append_assoc.
Qed.

Lemma openai_prompt_loop_app (xs ys : list entry) :
  forall prompt,
    OpenAI.prompt_loop (xs ++ ys) prompt =
    (r <- OpenAI.prompt_loop xs prompt ;; OpenAI.prompt_loop ys r).
Proof.
  induction xs as [|e xs IH]; intros prompt; [reflexivity|].
  cbn -[String.append tables_block].
  destruct (title e) as [ti|]; cbn -[String.append tables_block]; [|reflexivity].
  destruct (content e) as [c|]; cbn -[String.append tables_block]; [|reflexivity].
  destruct (tables e) as [tb|]; cbn -[String.append tables_block]; [|reflexivity].
  match goal with
  | |- Py.bind ?m _ = _ => destruct m as [q|x]; cbn -[String.append]
  end; [apply IH | reflexivity].
Qed.

(** X7.  The prompt of Variant B is the preamble, the sections of the
    records in order, and the closing instruction: the section of a record
    does not depend on the records around it, so the prompt of two lists put
    together holds the sections of the first followed by those of the
    second. *)
Theorem openai_prompt_sections_compose :
  forall (xs ys : list entry) (a b : string) (t : trace),
    OpenAI.prompt_loop xs "" = Ok a ->
    OpenAI.prompt_loop ys "" = Ok b ->
    OpenAI.generate_prompt xs t = (Ok (Some (OpenAI.preamble +++ a +++ OpenAI.closing)), t)
    /\ OpenAI.generate_prompt ys t = (Ok (Some (OpenAI.preamble +++ b +++ OpenAI.closing)), t)
    /\ OpenAI.generate_prompt (xs ++ ys) t =
       (Ok (Some (OpenAI.preamble +++ a +++ b +++ OpenAI.closing)), t).
Proof.
  intros xs ys a b t Ha Hb.
  unfold OpenAI.generate_prompt, try_except, bindM, lift, ret.
  rewrite openai_prompt_loop_app.
  rewrite (openai_prompt_loop_prefix xs), Ha.
  rewrite (openai_prompt_loop_prefix ys OpenAI.preamble), Hb.
  cbn -[String.append OpenAI.preamble OpenAI.closing].
  rewrite (openai_prompt_loop_prefix ys), Hb.
  cbn -[String.append OpenAI.preamble OpenAI.closing].
  now rewrite !append_assoc.
Qed.

Lemma openai_prompt_sections_compose_witness :
  OpenAI.generate_prompt
    ([mkEntry (Some "A") (Some "") None (Some [])]
       ++ [mkEntry (Some "B") (Some "body") None (Some [])]) [] =
  (Ok (Some (OpenAI.preamble
               +++ ("Slide Title: A" +++ nl +++ nl)
               +++ ("Slide Title: B" +++ nl +++ "Slide Content: body" +++ nl +++ nl)
               +++ OpenAI.closing)), []).
Proof.
  apply (openai_prompt_sections_compose
           [mkEntry (Some "A") (Some "") None (Some [])]
           [mkEntry (Some "B") (Some "body") None (Some [])]);
    reflexivity.
Defined.

(** ** The clients *)

(** X10.  The records of [preprocess_ppt] do not fit the consumers of
    Variant A: on every non-empty extraction [generate_prompt] raises
    [RuntimeError] for the missing key "text", and [split_prompt] raises the
    [KeyError] itself. *)
Theorem bedrock_consumers_reject_records :
  forall (p : Presentation) (max_chars : Z),
    preprocess_ppt p <> [] ->
    Bedrock.generate_prompt (preprocess_ppt p) =
      Raise (RuntimeError "Error generating prompt: " (KeyError "text"))
    /\ split_prompt (preprocess_ppt p) max_chars = Raise (KeyError "text").
Proof.
  intros p max_chars H. split.
  - exact (bedrock_prompt_rejects_records p H).
  - rewrite split_prompt_spec, serialize_all_missing_text; [reflexivity|].
    pose proof (preprocess_records_text p) as Ht.
    destruct (preprocess_ppt p) as [|e l]; [congruence|].
    apply Exists_cons_hd. apply Ht. now left.
Qed.

Lemma bedrock_consumers_reject_records_witness :
  Bedrock.generate_prompt (preprocess_ppt Examples.deck_with_gap) =
    Raise (RuntimeError "Error generating prompt: " (KeyError "text"))
  /\ split_prompt (preprocess_ppt Examples.deck_with_gap) 3000 =
       Raise (KeyError "text").
Proof.
  apply (bedrock_consumers_reject_records Examples.deck_with_gap 3000).
  discriminate.
Defined.

(** X11.  A summary returned by [ppt_summarization] has one origin only: the
    directory listing, the opening of the first ".pptx" file, a non-empty
    extraction and the prompt construction all succeeded, and the summary is
    the non-empty formatted content of the first choice that the chat
    endpoint returned for that prompt. *)
Theorem ppt_summarization_summary_origin :
  forall (W : World) (report_id : string) (t : trace) (s : string),
    fst (OpenAI.ppt_summarization W report_id t) = Ok (Some s) ->
    exists files path p prompt response choice others,
      listdir W (path_join (pandas_presentation_directory W) [report_id])
        = Ok files
      /\ first_pptx (pandas_presentation_directory W) report_id files = Some path
      /\ pptx_Presentation W path = Ok p
      /\ preprocess_ppt p <> []
      /\ OpenAI.prompt_loop (preprocess_ppt p) OpenAI.preamble = Ok prompt
      /\ ChatCompletion_create W (AZURE_OPENAI_DEPLOYMENT W)
           [("system", "You are an expert data analyst and report summarizer.");
            ("user", prompt +++ OpenAI.closing)] (7 # 10)%Q = Ok response
      /\ choices response = choice :: others
      /\ fmt_opt_str (message_content choice) = s
      /\ s <> "".
Proof.
  intros W report_id t s.
  unfold OpenAI.ppt_summarization, OpenAI.generate_prompt,
    OpenAI.summarize_with_azure_openai.
  unfold try_except, bindM, call, emit, ret, lift, raise.
  destruct (listdir W _) as [files|e] eqn:El; [|discriminate].
  destruct (first_pptx _ _ files) as [path|] eqn:Ef; [|discriminate].
  destruct (truthy_str path); [|discriminate]. cbn -[String.append].
  destruct (pptx_Presentation W path) as [p|e] eqn:Ep; [|discriminate].
  destruct (truthy_list (preprocess_ppt p)) eqn:Ed; [|discriminate].
  cbn -[String.append].
  destruct (OpenAI.prompt_loop (preprocess_ppt p) OpenAI.preamble)
    as [prompt|e] eqn:Eprompt; cbn -[String.append]; [|discriminate].
  destruct (ChatCompletion_create W _ _ _) as [response|e] eqn:Ec;
    cbn -[String.append]; [|discriminate].
  destruct (choices response) as [|choice others] eqn:Ech;
    cbn -[String.append]; [discriminate|].
  destruct (truthy_str (fmt_opt_str (message_content choice))) eqn:Es;
    cbn -[String.append]; [|discriminate].
  intros H. inversion H; subst; clear H.
  exists files, path, p, prompt, response, choice, others.
  repeat split; auto.
  - intros Hn. rewrite Hn in Ed. discriminate.
  - intros Hn. rewrite Hn in Es. discriminate.
Qed.

Lemma ppt_summarization_summary_origin_witness :
  exists files path p prompt response choice others,
    listdir (Examples.sample_world (Some "Two slides."))
      (path_join (pandas_presentation_directory
                    (Examples.sample_world (Some "Two slides."))) ["r1"])
      = Ok files
    /\ first_pptx (pandas_presentation_directory
                     (Examples.sample_world (Some "Two slides.")))
                  "r1" files = Some path
    /\ pptx_Presentation (Examples.sample_world (Some "Two slides.")) path = Ok p
    /\ preprocess_ppt p <> []
    /\ OpenAI.prompt_loop (preprocess_ppt p) OpenAI.preamble = Ok prompt
    /\ ChatCompletion_create (Examples.sample_world (Some "Two slides."))
         (AZURE_OPENAI_DEPLOYMENT (Examples.sample_world (Some "Two slides.")))
         [("system", "You are an expert data analyst and report summarizer.");
          ("user", prompt +++ OpenAI.closing)] (7 # 10)%Q = Ok response
    /\ choices response = choice :: others
    /\ fmt_opt_str (message_content choice) = "Two slides."
    /\ "Two slides." <> "".
Proof.
  apply (ppt_summarization_summary_origin
           (Examples.sample_world (Some "Two slides.")) "r1" []).
  reflexivity.
Defined.

(** X12.  A completion whose message content is null is not treated as a
    failure: the f-string of line 87 formats it to the text "None", and
    [ppt_summarization] returns that text as the summary. *)
Theorem ppt_summarization_null_content :
  forall (W : World) (report_id : string) (t : trace)
         (files : list string) (path : string) (p : Presentation)
         (prompt : string) (response : chat_response)
         (choice : chat_choice) (others : list chat_choice),
    listdir W (path_join (pandas_presentation_directory W) [report_id])
      = Ok files ->
    first_pptx (pandas_presentation_directory W) report_id files = Some path ->
    pptx_Presentation W path = Ok p ->
    preprocess_ppt p <> [] ->
    OpenAI.prompt_loop (preprocess_ppt p) OpenAI.preamble = Ok prompt ->
    ChatCompletion_create W (AZURE_OPENAI_DEPLOYMENT W)
      [("system", "You are an expert data analyst and report summarizer.");
       ("user", prompt +++ OpenAI.closing)] (7 # 10)%Q = Ok response ->
    choices response = choice :: others ->
    message_content choice = None ->
    fst (OpenAI.ppt_summarization W report_id t) = Ok (Some "None").
Proof.
  intros W report_id t files path p prompt response choice others
         Hl Hf Hp Hd Hprompt Hc Hch Hm.
  pose proof (first_pptx_truthy _ _ _ _ Hf) as Ht.
  assert (Hne : truthy_list (preprocess_ppt p) = true)
    by (destruct (preprocess_ppt p); [congruence | reflexivity]).
  unfold OpenAI.ppt_summarization, OpenAI.generate_prompt,
    OpenAI.summarize_with_azure_openai.
  unfold try_except, bindM, call, emit, ret, lift.
  rewrite Hl, Hf, Ht, Hp, Hne. simpl.
  rewrite Hprompt, Hc, Hch, Hm. reflexivity.
Qed.

Lemma ppt_summarization_null_content_witness :
  fst (OpenAI.ppt_summarization (Examples.sample_world None) "r1" [])
  = Ok (Some "None").
Proof.
  eapply (ppt_summarization_null_content
            (Examples.sample_world None) "r1" []
            ["notes.txt"; "deck.pptx"] "/data/presentations/r1/deck.pptx"
            Examples.deck_with_gap);
    reflexivity || discriminate.
Defined.

Lemma results_loop_spec (rs : list titan_result) :
  forall results t,
    Bedrock.results_loop rs results t =
    (Ok (results ++ map outputText rs), t ++ flat_map Spec.result_prints rs).
Proof.
  induction rs as [|r rs IH]; intros results t.
  - simpl. unfold ret. now rewrite !app_nil_r.
  - cbn -[String.append]. unfold bindM, emit, call.
    rewrite IH. rewrite <- !app_assoc. reflexivity.
Qed.

(** X13.  When [invoke_model] answers, [query_bedrock_model] returns one
    output per element of "results", in order, each the element's
    "outputText" or [None] without that key, after printing three lines per
    element; a response without "results" gives the empty list.  When
    [invoke_model] fails, the failure is raised again as [RuntimeError]. *)
Theorem query_bedrock_model_outputs :
  forall (W : World) (client : unit) (model_id prompt : string)
         (max_token_count : Z) (t : trace),
    let request := mkTitanRequest prompt max_token_count [] (7 # 10)%Q 1%Z in
    let sent :=
      InvokeModel model_id "application/json" "application/json" request in
    (forall body,
        invoke_model W model_id "application/json" "application/json" request
          = Ok body ->
        let rs := match results body with Some rs => rs | None => [] end in
        Bedrock.query_bedrock_model W client model_id prompt max_token_count t =
        (Ok (map outputText rs),
         t ++ sent :: flat_map Spec.result_prints rs))
    /\ (forall e,
          invoke_model W model_id "application/json" "application/json" request
            = Raise e ->
          Bedrock.query_bedrock_model W client model_id prompt max_token_count t =
          (Raise (RuntimeError "Error querying Bedrock model: " e), t ++ [sent])).
Proof.
  intros W client model_id prompt max_token_count t request sent.
  unfold Bedrock.query_bedrock_model, try_except, bindM, call, raise.
  fold request. split.
  - intros body H. rewrite H. rewrite results_loop_spec. subst sent.
    simpl. rewrite <- app_assoc. reflexivity.
  - intros e H. rewrite H. reflexivity.
Qed.

Lemma query_bedrock_model_outputs_witness :
  Bedrock.query_bedrock_model (Examples.sample_world None) tt
    "amazon.titan-text-express-v1" "p" 4096 [] =
  (Ok (map outputText
           [mkTitanResult (Some 12%Z) (Some "Deliverability was stable.")
                          (Some "FINISH")]),
   [] ++ InvokeModel "amazon.titan-text-express-v1" "application/json"
           "application/json" (mkTitanRequest "p" 4096 [] (7 # 10)%Q 1%Z)
        :: flat_map Spec.result_prints
             [mkTitanResult (Some 12%Z) (Some "Deliverability was stable.")
                            (Some "FINISH")]).
Proof.
  destruct (query_bedrock_model_outputs (Examples.sample_world None) tt
              "amazon.titan-text-express-v1" "p" 4096 []) as [H _].
  exact (H _ eq_refl).
Defined.

(** X14.  The file lookup takes the first name of the listing, in listing
    order, that ends in ".pptx", and joins it to the directory of the report;
    it finds nothing exactly when no name of the listing ends in ".pptx". *)
Theorem first_pptx_first_match :
  forall (directory report_id : string) (files : list string),
    (forall path,
        first_pptx directory report_id files = Some path <->
        exists before file after,
          files = before ++ file :: after
          /\ Forall (fun f => endswith f ".pptx" = false) before
          /\ endswith file ".pptx" = true
          /\ path = path_join directory [report_id; file])
    /\ (first_pptx directory report_id files = None <->
        Forall (fun f => endswith f ".pptx" = false) files).
Proof.
  intros directory report_id files. split.
  - induction files as [|f files IH]; intros path; simpl.
    + split; [discriminate|].
      intros [before [file [after [H _]]]]. destruct before; discriminate.
    + destruct (endswith f ".pptx") eqn:E.
      * split.
        -- intros H. inversion H; subst. exists [], f, files.
           repeat split; auto.
        -- intros [before [file [after [Hf [Hb [He Hp]]]]]].
           destruct before as [|b before]; simpl in Hf; inversion Hf; subst.
           ++ reflexivity.
           ++ inversion Hb; subst. congruence.
      * rewrite IH. split.
        -- intros [before [file [after [Hf [Hb [He Hp]]]]]].
           exists (f :: before), file, after. subst. repeat split; auto.
        -- intros [before [file [after [Hf [Hb [He Hp]]]]]].
           destruct before as [|b before]; simpl in Hf; inversion Hf; subst.
           ++ congruence.
           ++ inversion Hb; subst. exists before, file, after.
              repeat split; auto.
  - split; [|apply first_pptx_none].
    induction files as [|f files IH]; simpl; [constructor|].
    destruct (endswith f ".pptx") eqn:E; [discriminate|]. auto.
Qed.

Lemma first_pptx_first_match_witness :
  first_pptx "/data/presentations" "r1" ["notes.txt"; "a.pptx"; "b.pptx"]
  = Some (path_join "/data/presentations" ["r1"; "a.pptx"]).
Proof.
  destruct (first_pptx_first_match "/data/presentations" "r1"
              ["notes.txt"; "a.pptx"; "b.pptx"]) as [H _].
  apply H. exists ["notes.txt"], "a.pptx", ["b.pptx"].
  repeat split; auto.
Defined.




(** X16.  A run of [ppt_summarization] sends at most one request to the
    chat endpoint (nothing is retried) and touches no Bedrock client; and it
    writes an error to the log exactly when it does not return a summary. *)
Theorem ppt_summarization_calls_and_logs :
  forall (W : World) (report_id : string),
    let r := Eff.run (OpenAI.ppt_summarization W report_id) in
    length (filter is_generation_call (snd r)) <= 1
    /\ forallb (fun ev => match ev with
                          | CreateClient _ _ | InvokeModel _ _ _ _ => false
                          | _ => true
                          end) (snd r) = true
    /\ existsb Spec.is_error_log (snd r) =
       match fst r with
       | Ok (Some _) => false
       | _ => true
       end.
Proof.
  intros W report_id.
  unfold Eff.run, OpenAI.ppt_summarization, OpenAI.generate_prompt,
    OpenAI.summarize_with_azure_openai.
  unfold try_except, bindM, call, emit, ret, lift, raise.
  cbn -[String.append].
  destruct (listdir W _) as [files|e];
    [|cbn -[String.append]; repeat split; auto].
  destruct (first_pptx _ _ files) as [path|];
    [|cbn -[String.append]; repeat split; auto].
  destruct (truthy_str path);
    [|cbn -[String.append]; repeat split; auto].
  cbn -[String.append].
  destruct (pptx_Presentation W path) as [p|e];
    [|cbn -[String.append]; repeat split; auto].
  destruct (truthy_list (preprocess_ppt p));
    [|cbn -[String.append]; repeat split; auto].
  cbn -[String.append].
  destruct (OpenAI.prompt_loop (preprocess_ppt p) OpenAI.preamble)
    as [prompt|e]; cbn -[String.append]; [|repeat split; auto].
  destruct (ChatCompletion_create W _ _ _) as [response|e];
    cbn -[String.append]; [|repeat split; auto].
  destruct (choices response) as [|choice others];
    cbn -[String.append]; [repeat split; auto|].
  destruct (truthy_str (fmt_opt_str (message_content choice)));
    cbn -[String.append]; repeat split; auto.
Qed.

(** ** The extractors *)

Lemma filter_nil_iff {A} (f : A -> bool) (l : list A) :
  filter f l = [] <-> forall x, In x l -> f x = false.
Proof.
  induction l as [|a l IH]; simpl; [tauto|].
  destruct (f a) eqn:E; split.
  - discriminate.
  - intros H. specialize (H a (or_introl eq_refl)). congruence.
  - intros H x [<-|Hx]; [exact E | now apply IH].
  - intros H. apply IH. auto.
Qed.

Lemma blank_iff_no_items (s : Slide) :
  Spec.blank s = true <->
  Spec.text_items (shapes s) = [] /\ Spec.raw_tables (shapes s) = [].
Proof.
  split; [apply blank_no_items|].
  unfold Spec.text_items, Spec.raw_tables, Spec.blank.
  intros [Ht Hb]. apply map_eq_nil in Ht. apply map_eq_nil in Hb.
  rewrite filter_nil_iff in Ht, Hb. apply forallb_forall. intros sh Hin.
  specialize (Ht sh Hin). specialize (Hb sh Hin). rewrite Ht in *.
  simpl in *. now rewrite Hb.
Qed.

Lemma record_of_length (s : Slide) :
  length (Spec.record_of s) = if Spec.blank s then 0 else 1.
Proof.
  destruct (Spec.blank s) eqn:E.
  - apply blank_iff_no_items in E. destruct E as [Ht Hb].
    unfold Spec.record_of. now rewrite Ht, Hb.
  - unfold Spec.record_of.
    destruct (Spec.text_items (shapes s)) eqn:Ht;
      [destruct (Spec.raw_tables (shapes s)) eqn:Hb|]; try reflexivity.
    assert (Spec.blank s = true) by (apply blank_iff_no_items; auto).
    congruence.
Qed.

(** X17.  [preprocess_ppt] returns one record per slide that has a text
    frame or a table, in slide order, and none for the other slides: it
    returns the empty list exactly when no slide has a text frame or a
    table. *)
Theorem preprocess_ppt_keeps_nonblank_slides :
  forall (p : Presentation),
    length (preprocess_ppt p) =
      length (filter (fun s => negb (Spec.blank s)) (slides p))
    /\ (preprocess_ppt p = [] <->
        Forall (fun s => Spec.blank s = true) (slides p)).
Proof.
  intros p. rewrite preprocess_ppt_spec.
  assert (Hlen : length (flat_map Spec.record_of (slides p)) =
                 length (filter (fun s => negb (Spec.blank s)) (slides p))).
  { induction (slides p) as [|s sls IH]; [reflexivity|].
    simpl. rewrite length_app, record_of_length, IH.
    destruct (Spec.blank s); reflexivity. }
  split; [exact Hlen|].
  rewrite <- length_zero_iff_nil, Hlen, length_zero_iff_nil.
  rewrite filter_nil_iff, Forall_forall.
  split; intros H s Hs; specialize (H s Hs).
  - now apply negb_false_iff in H.
  - now rewrite H.
Qed.

Lemma numbered_lines_blank (to_string : pd.DataFrame -> string)
    (sls : list Slide) :
  Forall (fun s => Spec.blank s = true) sls ->
  forall idx, Spec.numbered_lines to_string idx sls = Ok [].
Proof.
  induction 1 as [|s sls Hs H IH]; intros idx; simpl; [reflexivity|].
  rewrite (blank_slide_lines to_string s Hs). simpl. now rewrite IH.
Qed.

(** X18.  On a presentation without slides, or whose slides have neither
    text frame nor table, the flat extractor returns the empty string and
    the structured extractor the empty list. *)
Theorem blank_presentation_extracts_nothing :
  forall (to_string : pd.DataFrame -> string) (p : Presentation),
    Forall (fun s => Spec.blank s = true) (slides p) ->
    extract_content_from_ppt to_string p = Ok ""
    /\ preprocess_ppt p = [].
Proof.
  intros to_string p H. split.
  - unfold extract_content_from_ppt.
    rewrite content_loop_spec, (numbered_lines_blank to_string _ H 0).
    reflexivity.
  - rewrite preprocess_ppt_spec.
    induction H as [|s sls Hs H IH]; [reflexivity|].
    simpl. rewrite IH, app_nil_r.
    apply length_zero_iff_nil. now rewrite record_of_length, Hs.
Qed.

Lemma blank_presentation_extracts_nothing_witness :
  extract_content_from_ppt Examples.plain_to_string
    (mkPresentation [mkSlide [Examples.picture]; mkSlide []]) = Ok ""
  /\ preprocess_ppt (mkPresentation [mkSlide [Examples.picture]; mkSlide []]) = [].
Proof.
  apply (blank_presentation_extracts_nothing Examples.plain_to_string
           (mkPresentation [mkSlide [Examples.picture]; mkSlide []])).
  repeat constructor.
Defined.

Lemma rstrip_fixed_tail (c : ascii) (r : string) :
  rstrip (String c r) = String c r -> rstrip r = r.
Proof.
  simpl. destruct (rstrip r) as [|a s'] eqn:E.
  - destruct (isspace c); [discriminate|].
    intros H. inversion H. reflexivity.
  - intros H. now inversion H.
Qed.

Lemma rstrip_idempotent (s : string) : rstrip (rstrip s) = rstrip s.
Proof.
  induction s as [|c s IH]; [reflexivity|].
  simpl. destruct (rstrip s) as [|a s'] eqn:E.
  - destruct (isspace c) eqn:Ec; [reflexivity|]. simpl. now rewrite Ec.
  - change (rstrip (String c (String a s')))
      with (match rstrip (String a s') with
            | EmptyString => if isspace c then EmptyString else String c EmptyString
            | r' => String c r'
            end).
    now rewrite IH.
Qed.

Lemma rstrip_lstrip_fixed (r : string) :
  rstrip r = r -> rstrip (lstrip r) = lstrip r.
Proof.
  induction r as [|c r IH]; intros H; [reflexivity|].
  simpl lstrip. destruct (isspace c); [|exact H].
  apply IH. exact (rstrip_fixed_tail c r H).
Qed.

Lemma lstrip_idempotent (s : string) : lstrip (lstrip s) = lstrip s.
Proof.
  induction s as [|c s IH]; [reflexivity|].
  simpl. destruct (isspace c) eqn:E; [exact IH|]. simpl. now rewrite E.
Qed.

Lemma strip_idempotent (s : string) : strip (strip s) = strip s.
Proof.
  unfold strip.
  rewrite (rstrip_lstrip_fixed (rstrip s) (rstrip_idempotent s)).
  apply lstrip_idempotent.
Qed.

(** X19.  The title of every record of [preprocess_ppt], and every cell of
    every table of a record, is trimmed: it has no whitespace at either end.
    The content of a record is the join, by single spaces, of trimmed text
    items; an empty item can leave a space at an end of the content, as for
    the text items "T", "" and "x", whose content is " x". *)
Theorem preprocess_ppt_texts_trimmed :
  forall (p : Presentation) (e : entry),
    In e (preprocess_ppt p) ->
    (exists t, title e = Some t /\ strip t = t)
    /\ (exists tbs,
           tables e = Some tbs /\
           forall tb row cell,
             In tb tbs -> In row tb -> In cell row -> strip cell = cell)
    /\ (exists items,
           content e = Some (join " " items) /\
           Forall (fun item => strip item = item) items)
    /\ preprocess_ppt
         (mkPresentation
            [mkSlide [Examples.text_box "T"; Examples.text_box " ";
                      Examples.text_box "x"]])
       = [mkEntry (Some "T") (Some " x") None (Some [])].
Proof.
  intros p e H. rewrite preprocess_ppt_spec in H. apply in_flat_map in H.
  destruct H as [s [_ H]].
  assert (Hi : Forall (fun item => strip item = item)
                      (Spec.text_items (shapes s))).
  { unfold Spec.text_items. apply Forall_map, Forall_forall.
    intros sh _. apply strip_idempotent. }
  assert (Ht : strip (hd "Untitled Slide" (Spec.text_items (shapes s)))
               = hd "Untitled Slide" (Spec.text_items (shapes s))).
  { destruct Hi as [|i items Hi _]; [reflexivity | exact Hi]. }
  assert (Hr : Forall (fun item => strip item = item)
                      (tl (Spec.text_items (shapes s)))).
  { destruct Hi as [|i items _ Hi]; [constructor | exact Hi]. }
  assert (Hc : forall tb row cell,
             In tb (Spec.raw_tables (shapes s)) -> In row tb -> In cell row ->
             strip cell = cell).
  { intros tb row cell Htb Hrow Hcell. unfold Spec.raw_tables in Htb.
    apply in_map_iff in Htb. destruct Htb as [sh [<- _]].
    unfold Spec.raw_table in Hrow. apply in_map_iff in Hrow.
    destruct Hrow as [r [<- _]]. apply in_map_iff in Hcell.
    destruct Hcell as [c [<- _]]. apply strip_idempotent. }
  unfold Spec.record_of in H. clear Hi. revert Ht Hr Hc H.
  destruct (Spec.text_items (shapes s)) as [|i items];
    [destruct (Spec.raw_tables (shapes s)) as [|tb0 tbs]|];
    intros Ht Hr Hc H; [destruct H | |];
    (destruct H as [H|[]]; subst e;
     split; [eexists; split; [reflexivity | exact Ht]
            |split; [eexists; split; [reflexivity | exact Hc]
                    |split; [eexists; split; [reflexivity | exact Hr]
                            |reflexivity]]]).
Qed.

Lemma preprocess_ppt_texts_trimmed_witness :
  (exists t, Some "Q3 Report" = Some t /\ strip t = t)
  /\ (exists tbs,
         Some [[["a"; "b"]]] = Some tbs /\
         forall tb row cell,
           In tb tbs -> In row tb -> In cell row -> strip cell = cell)
  /\ (exists items,
         Some "Intro line" = Some (join " " items) /\
         Forall (fun item => strip item = item) items).
Proof.
  destruct (preprocess_ppt_texts_trimmed
              (mkPresentation
                 [mkSlide [Examples.text_box "  Q3 Report ";
                           Examples.text_box "Intro line ";
                           Examples.table_shape [[" a "; "b"]]]])
              (mkEntry (Some "Q3 Report") (Some "Intro line") None
                       (Some [[["a"; "b"]]]))
              (or_introl eq_refl)) as [H1 [H2 [H3 _]]].
  exact (conj H1 (conj H2 H3)).
Defined.

Lemma slide_lines_spec (to_string : pd.DataFrame -> string) (s : Slide) :
  slide_lines to_string s =
  (dfs <- extract_tables_from_slide s ;;
   Ok (Spec.text_items (shapes s) ++ map to_string dfs)).
Proof. unfold slide_lines. now rewrite text_loop_spec. Qed.

(** X20.  In a block of the flat extractor the texts of the slide come
    first, in shape order, and the renderings of its tables after them,
    whatever the order of the shapes on the slide. *)
Theorem flat_block_texts_before_tables :
  forall (to_string : pd.DataFrame -> string) (p : Presentation)
         (bl : list (nat * list string)),
    Spec.numbered_lines to_string 0 (slides p) = Ok bl ->
    forall i l,
      In (i, l) bl ->
      exists s dfs,
        nth_error (slides p) i = Some s
        /\ extract_tables_from_slide s = Ok dfs
        /\ l = Spec.text_items (shapes s) ++ map to_string dfs.
Proof.
  intros to_string p bl H i l Hin.
  apply (numbered_lines_In to_string _ _ _ H) in Hin.
  destruct Hin as [_ [s [Hn [Hl _]]]]. rewrite Nat.sub_0_r in Hn.
  rewrite slide_lines_spec in Hl.
  destruct (extract_tables_from_slide s) as [dfs|e] eqn:E; simpl in Hl;
    [|discriminate].
  exists s, dfs. inversion Hl. repeat split; auto.
Qed.

Lemma flat_block_texts_before_tables_witness :
  exists s dfs,
    nth_error
      (slides (mkPresentation
                 [mkSlide [Examples.opens_table; Examples.text_box " hi "]])) 0
      = Some s
    /\ extract_tables_from_slide s = Ok dfs
    /\ ["hi"; "Region, Opens"] =
       Spec.text_items (shapes s) ++ map Examples.plain_to_string dfs.
Proof.
  apply (flat_block_texts_before_tables Examples.plain_to_string
           (mkPresentation
              [mkSlide [Examples.opens_table; Examples.text_box " hi "]])
           [(0, ["hi"; "Region, Opens"])]).
  - reflexivity.
  - left. reflexivity.
Defined.






Lemma preprocess_ppt_keeps_nonblank_slides_witness :
  length (preprocess_ppt Examples.deck_with_gap) = 2
  /\ preprocess_ppt (mkPresentation [mkSlide [Examples.picture]]) = [].
Proof.
  split.
  - destruct (preprocess_ppt_keeps_nonblank_slides Examples.deck_with_gap)
      as [H _].
    exact H.
  - apply (preprocess_ppt_keeps_nonblank_slides
             (mkPresentation [mkSlide [Examples.picture]])).
    repeat constructor.
Defined.
